(** * Google Sheets MCP server: the authenticated request layer

    A shallow embedding of [src/main.py]: the credential provider
    ([get_connection_credentials]), the single-slot token cache
    ([get_access_token], [refresh_access_token]), the request executor
    ([_raise_for_status], [make_api_request]) and the operation wrappers,
    followed by the properties of the specification that are settled on it.

    Python objects are values of [pyval]; exceptions are values of [exn];
    a function that touches the token cache or the network is a computation
    in the state-and-exception monad [M].  The outside world (the process
    environment, the broker and the target API) is a [world]: the n-th
    network call is answered by an oracle, and every call is logged in the
    state, so that "no network call is made" is a statement about the log. *)

From Stdlib Require Import ZArith Ascii.
From stdpp Require Import base strings list gmap pretty.

Set Warnings "-register-all".
Open Scope string_scope.
Open Scope Z_scope.

(** ** Python values *)

(** The values that flow through the program: [None], and what
    [response.json()] builds.  A float is kept as its Python [repr], which
    identifies it; a dict keeps its insertion order. *)
Inductive pyval : Type :=
  | PNone
  | PBool (b : bool)
  | PInt (z : Z)
  | PFloat (repr : string)
  | PStr (s : string)
  | PList (xs : list pyval)
  | PDict (kvs : list (string * pyval)).

(** Python truth value testing ([if x:], [not x], [bool(x)]). *)
Definition truthy (v : pyval) : bool :=
  match v with
  | PNone => false
  | PBool b => b
  | PInt z => negb (Z.eqb z 0)
  | PFloat r => negb (String.eqb r "0.0" || String.eqb r "-0.0")
  | PStr s => negb (String.eqb s "")
  | PList xs => match xs with [] => false | _ => true end
  | PDict kvs => match kvs with [] => false | _ => true end
  end.

(** [x is None]. *)
Definition is_None (v : pyval) : bool :=
  match v with PNone => true | _ => false end.

(** Key lookup in a dict. *)
Fixpoint lookup_key (k : string) (kvs : list (string * pyval)) : option pyval :=
  match kvs with
  | [] => None
  | (k', v) :: rest => if String.eqb k k' then Some v else lookup_key k rest
  end.

(** [d[k] = v]: replaces the value of an existing key in place, appends a
    new key at the end. *)
Fixpoint set_key (k : string) (v : pyval) (kvs : list (string * pyval))
  : list (string * pyval) :=
  match kvs with
  | [] => [(k, v)]
  | (k', v') :: rest =>
      if String.eqb k k' then (k', v) :: rest else (k', v') :: set_key k v rest
  end.

Section Repr.

(** [repr] of a Python [str] (quote selection and escapes), left abstract:
    it only shows when a container is formatted. *)
Variable repr_str : string → string.

Fixpoint py_repr (v : pyval) : string :=
  match v with
  | PNone => "None"
  | PBool true => "True"
  | PBool false => "False"
  | PInt z => pretty z
  | PFloat r => r
  | PStr s => repr_str s
  | PList xs => "[" +:+ String.concat ", " (map py_repr xs) +:+ "]"
  | PDict kvs =>
      "{" +:+ String.concat ", "
                (map (λ kv, match kv with
                            | (k, x) => repr_str k +:+ ": " +:+ py_repr x
                            end) kvs) +:+ "}"
  end.

(** [str(v)], as an f-string placeholder [{v}] formats it. *)
Definition py_str (v : pyval) : string :=
  match v with
  | PStr s => s
  | _ => py_repr v
  end.

End Repr.

(** ** Exceptions *)

(** The error taxonomy of the program: [GoogleSheetsAPIError] and its five
    subclasses. *)
Inductive error_class : Type :=
  | GoogleSheetsAPIError
  | AuthenticationError
  | AuthorizationError
  | ResourceNotFoundError
  | QuotaExceededError
  | ValidationError.

(** Exceptions raised by the HTTP library, each with its [str(e)].  An
    exception that is both a timeout and a connection error (a connect
    timeout) is a [Timeout]: both handler chains of the program test
    [Timeout] first.  [RequestException] stands for the remaining subclasses
    of the library's base class (a JSON decoding error is one), [Foreign]
    for an exception outside that hierarchy. *)
Inductive lib_exn : Type :=
  | Timeout (s : string)
  | ConnectionError (s : string)
  | HTTPError (s : string)
  | RequestException (s : string)
  | Foreign (s : string).

Definition lib_str (e : lib_exn) : string :=
  match e with
  | Timeout s | ConnectionError s | HTTPError s
  | RequestException s | Foreign s => s
  end.

Inductive exn : Type :=
  | Api (c : error_class) (message : string)
        (status_code : option Z) (response_data : pyval)
  | Lib (e : lib_exn)
  | AttributeError
  | TypeError
  | UnboundLocalError
  | PydanticValidationError.

(** Membership in the [GoogleSheetsAPIError] family. *)
Definition is_api_error (e : exn) : bool :=
  match e with Api _ _ _ _ => true | _ => false end.

Definition error_class_of (e : exn) : option error_class :=
  match e with Api c _ _ _ => Some c | _ => None end.

Inductive outcome (A : Type) : Type :=
  | Returns (a : A)
  | Raises (e : exn).
Arguments Returns {A} a.
Arguments Raises {A} e.

(** [v.get(key, default)]: only a dict has the method. *)
Definition py_get (v : pyval) (key : string) (dflt : pyval) : outcome pyval :=
  match v with
  | PDict kvs => Returns (default dflt (lookup_key key kvs))
  | _ => Raises AttributeError
  end.

(** ** The HTTP library *)

Inductive json_result : Type :=
  | JsonValue (v : pyval)
  | JsonInvalid (msg : string).

(** A [requests.Response], with the attributes the program reads:
    [json] is what [response.json()] does, a value or a decoding error. *)
Record response : Type := Response {
  status_code : Z;
  reason : string;
  response_url : string;
  content : list Byte.byte;
  text : string;
  json : json_result;
}.

(** [response.ok]: true unless [raise_for_status] raises. *)
Definition ok (r : response) : bool :=
  negb ((400 <=? status_code r) && (status_code r <? 600)).

(** [response.raise_for_status()]. *)
Definition raise_for_status (r : response) : unit + lib_exn :=
  let sc := status_code r in
  if (400 <=? sc) && (sc <? 500) then
    inr (HTTPError (pretty sc +:+ " Client Error: " +:+ reason r
                    +:+ " for url: " +:+ response_url r))
  else if (500 <=? sc) && (sc <? 600) then
    inr (HTTPError (pretty sc +:+ " Server Error: " +:+ reason r
                    +:+ " for url: " +:+ response_url r))
  else inl tt.

(** [response.json()]. *)
Definition response_json (r : response) : pyval + lib_exn :=
  match json r with
  | JsonValue v => inl v
  | JsonInvalid msg => inr (RequestException msg)
  end.

(** The arguments of [requests.get(url, headers=, params=, timeout=)]. *)
Record broker_request : Type := BrokerRequest {
  get_url : string;
  get_headers : gmap string string;
  get_params : pyval;
  get_timeout : Z;
}.

(** The arguments of [requests.request(method=, url=, headers=, params=,
    json=, data=, timeout=)]. *)
Record api_request : Type := ApiRequest {
  req_method : string;
  req_url : string;
  req_headers : gmap string string;
  req_params : pyval;
  req_json : pyval;
  req_data : pyval;
  req_timeout : Z;
}.

(** What a network call does: it returns a response, or raises a timeout,
    a connection error, another exception of the library, or an exception
    from outside the library.  The library raises [HTTPError] only from
    [raise_for_status]. *)
Inductive transport : Type :=
  | Responded (r : response)
  | TimedOut (s : string)
  | ConnectionFailed (s : string)
  | RequestFailed (s : string)
  | Crashed (s : string).

Definition transport_result (t : transport) : response + lib_exn :=
  match t with
  | Responded r => inl r
  | TimedOut s => inr (Timeout s)
  | ConnectionFailed s => inr (ConnectionError s)
  | RequestFailed s => inr (RequestException s)
  | Crashed s => inr (Foreign s)
  end.

(** The outside world: [os.environ], and the answers of the broker and of
    the target API to the n-th call made to each. *)
Record world : Type := World {
  environ : gmap string string;
  broker : nat → broker_request → transport;
  target : nat → api_request → transport;
}.

(** ** Program state and the monad of effects *)

(** The module-level [_cached_access_token], and the network calls made so
    far, oldest first. *)
Record state : Type := State {
  _cached_access_token : pyval;
  broker_log : list broker_request;
  api_log : list api_request;
}.

Definition M (A : Type) : Type := state → outcome A * state.

Definition ret {A} (a : A) : M A := λ st, (Returns a, st).

Definition raise {A} (e : exn) : M A := λ st, (Raises e, st).

Definition bind {A B} (m : M A) (k : A → M B) : M B :=
  λ st, match m st with
        | (Returns a, st') => k a st'
        | (Raises e, st') => (Raises e, st')
        end.

(** [try: body / except ...: raise handler(e)] where every clause raises;
    [handler] maps an exception to the one that leaves the statement (the
    same one when no clause matches). *)
Definition try_except {A} (body : M A) (handler : exn → exn) : M A :=
  λ st, match body st with
        | (Returns a, st') => (Returns a, st')
        | (Raises e, st') => (Raises (handler e), st')
        end.

Definition lift {A} (o : outcome A) : M A := λ st, (o, st).

Declare Scope py_scope.
Delimit Scope py_scope with py.
Notation "x <- c1 ;; c2" := (bind c1 (λ x, c2))
  (at level 100, c1 at next level, right associativity) : py_scope.
Notation "c1 ;; c2" := (bind c1 (λ _, c2))
  (at level 100, right associativity) : py_scope.
Open Scope py_scope.

Definition read_cache : M pyval := λ st, (Returns (_cached_access_token st), st).

Definition write_cache (v : pyval) : M unit :=
  λ st, (Returns tt, State v (broker_log st) (api_log st)).

(** ** The program *)

(** The structured output models ([BaseModel] subclasses) that the
    operations return. *)
Inductive model : Type :=
  | Spreadsheet
  | BatchUpdateResponse
  | ValueRange
  | BatchGetValuesResponse
  | BatchUpdateValuesResponse
  | BatchClearValuesResponse
  | DeveloperMetadata
  | SearchDeveloperMetadataResponse.

(** What an operation hands back: a model built from keyword arguments,
    or the value that [make_api_request] returned. *)
Inductive tool_result : Type :=
  | Structured (m : model) (fields : list (string * pyval))
  | Plain (v : pyval).

(** An invocation of one of the sixteen operations that wrap an endpoint,
    with its arguments in the order of the function's signature. *)
Inductive tool_call : Type :=
  | SpreadsheetsCreate (title locale auto_recalc time_zone sheets : pyval)
  | SpreadsheetsGet (spreadsheet_id ranges include_grid_data fields : pyval)
  | SpreadsheetsBatchUpdate
      (spreadsheet_id requests include_spreadsheet_in_response
       response_ranges response_include_grid_data : pyval)
  | SpreadsheetsGetByDataFilter
      (spreadsheet_id data_filters include_grid_data : pyval)
  | ValuesGet
      (spreadsheet_id range major_dimension value_render_option
       date_time_render_option : pyval)
  | ValuesUpdate
      (spreadsheet_id range values value_input_option major_dimension
       include_values_in_response response_value_render_option
       response_date_time_render_option : pyval)
  | ValuesAppend
      (spreadsheet_id range values value_input_option major_dimension
       insert_data_option include_values_in_response
       response_value_render_option response_date_time_render_option : pyval)
  | ValuesClear (spreadsheet_id range : pyval)
  | ValuesBatchGet
      (spreadsheet_id ranges major_dimension value_render_option
       date_time_render_option : pyval)
  | ValuesBatchUpdate
      (spreadsheet_id data value_input_option include_values_in_response
       response_value_render_option response_date_time_render_option : pyval)
  | ValuesBatchClear (spreadsheet_id ranges : pyval)
  | ValuesBatchGetByDataFilter
      (spreadsheet_id data_filters major_dimension value_render_option
       date_time_render_option : pyval)
  | ValuesBatchUpdateByDataFilter
      (spreadsheet_id data value_input_option include_values_in_response
       response_value_render_option response_date_time_render_option : pyval)
  | ValuesBatchClearByDataFilter (spreadsheet_id data_filters : pyval)
  | DeveloperMetadataGet (spreadsheet_id metadata_id : pyval)
  | DeveloperMetadataSearch (spreadsheet_id data_filters : pyval).

Definition BASE_URL : string := "https://sheets.googleapis.com".

Definition required_vars : list string :=
  ["NANGO_CONNECTION_ID"; "NANGO_INTEGRATION_ID";
   "NANGO_BASE_URL"; "NANGO_SECRET_KEY"].

Section Program.

Variable repr_str : string → string.
Variable w : world.

(** *** Network primitives *)

(** [requests.get]: the call is logged, the broker answers. *)
Definition requests_get (req : broker_request)
  : state → (response + lib_exn) * state :=
  λ st, (transport_result (broker w (length (broker_log st)) req),
         State (_cached_access_token st) (broker_log st ++ [req]) (api_log st)).

(** [requests.request]: the call is logged, the target API answers. *)
Definition requests_request (req : api_request) : M response :=
  λ st, let st' := State (_cached_access_token st) (broker_log st)
                         (api_log st ++ [req]) in
        match transport_result (target w (length (api_log st)) req) with
        | inl r => (Returns r, st')
        | inr e => (Raises (Lib e), st')
        end.

(** *** Credential provider *)

(** [os.environ.get(var)]. *)
Definition os_environ_get (var : string) : pyval :=
  match environ w !! var with
  | Some s => PStr s
  | None => PNone
  end.

(** [[var for var in required_vars if not os.environ.get(var)]]. *)
Definition missing_vars : list string :=
  List.filter (λ var, negb (truthy (os_environ_get var))) required_vars.

(** The [except] clauses of [get_connection_credentials], in order;
    [response] is the local variable, unbound until [requests.get]
    returns. *)
Definition credentials_failure (response : option response) (e : lib_exn) : exn :=
  match e with
  | Timeout _ =>
      Api AuthenticationError
          "Timeout while connecting to Nango authentication service" None PNone
  | ConnectionError _ =>
      Api AuthenticationError
          "Failed to connect to Nango authentication service" None PNone
  | HTTPError _ =>
      match response with
      | None => UnboundLocalError
      | Some r =>
          if status_code r =? 401 then
            Api AuthenticationError "Invalid Nango secret key" None PNone
          else if status_code r =? 404 then
            Api AuthenticationError "Nango connection not found" None PNone
          else
            Api AuthenticationError
                ("Nango API error: " +:+ pretty (status_code r)
                 +:+ " - " +:+ text r) None PNone
      end
  | RequestException s | Foreign s =>
      Api AuthenticationError
          ("Unexpected error getting Nango credentials: " +:+ s) None PNone
  end.

Definition credentials_request : broker_request :=
  let id := os_environ_get "NANGO_CONNECTION_ID" in
  let integration_id := os_environ_get "NANGO_INTEGRATION_ID" in
  let base_url := os_environ_get "NANGO_BASE_URL" in
  let secret_key := os_environ_get "NANGO_SECRET_KEY" in
  let url := py_str repr_str base_url +:+ "/connection/" +:+ py_str repr_str id in
  let params := PDict [("provider_config_key", integration_id);
                       ("refresh_token", PStr "true")] in
  let headers : gmap string string :=
    {[ "Authorization" := "Bearer " +:+ py_str repr_str secret_key ]} in
  BrokerRequest url headers params 30.

Definition get_connection_credentials : M pyval :=
  λ st,
    match missing_vars with
    | _ :: _ =>
        raise (Api AuthenticationError
                   ("Missing required environment variables: "
                    +:+ String.concat ", " missing_vars) None PNone) st
    | [] =>
        match requests_get credentials_request st with
        | (inr e, st1) => (Raises (credentials_failure None e), st1)
        | (inl response, st1) =>
            match raise_for_status response with
            | inr e => (Raises (credentials_failure (Some response) e), st1)
            | inl _ =>
                match response_json response with
                | inr e => (Raises (credentials_failure (Some response) e), st1)
                | inl body => (Returns body, st1)
                end
            end
        end
    end.

(** *** Token cache *)

Definition get_access_token : M pyval :=
  cached <- read_cache ;;
  (if is_None cached then
     credentials <- get_connection_credentials ;;
     inner <- lift (py_get credentials "credentials" (PDict [])) ;;
     token <- lift (py_get inner "access_token" PNone) ;;
     write_cache token ;;
     if negb (truthy token) then
       raise (Api AuthenticationError
                  "No access token found in Nango credentials" None PNone)
     else ret tt
   else ret tt) ;;
  read_cache.

Definition refresh_access_token : M pyval :=
  write_cache PNone ;;
  get_access_token.

(** *** Request executor *)

(** The [try]/[except] of [_raise_for_status] that computes
    [error_message]; the bare [except] catches everything. *)
Definition error_message (r : response) : pyval :=
  let fallback :=
    if truthy (PStr (text r)) then PStr (text r)
    else PStr ("HTTP " +:+ pretty (status_code r) +:+ " error") in
  match response_json r with
  | inr _ => fallback
  | inl error_data =>
      match py_get error_data "error" (PDict []) with
      | Raises _ => fallback
      | Returns err =>
          match py_get err "message" (PStr (text r)) with
          | Raises _ => fallback
          | Returns m => m
          end
      end
  end.

(** [error_data if 'error_data' in locals() else None]. *)
Definition error_data_or_None (r : response) : pyval :=
  match response_json r with
  | inl error_data => error_data
  | inr _ => PNone
  end.

Definition _raise_for_status (r : response) : outcome unit :=
  if ok r then Returns tt
  else
    let status_code := status_code r in
    let msg := py_str repr_str (error_message r) in
    let data := error_data_or_None r in
    if status_code =? 400 then
      Raises (Api ValidationError ("Bad request: " +:+ msg) (Some status_code) data)
    else if status_code =? 401 then
      Raises (Api AuthenticationError ("Authentication failed: " +:+ msg)
                  (Some status_code) data)
    else if status_code =? 403 then
      Raises (Api AuthorizationError ("Permission denied: " +:+ msg)
                  (Some status_code) data)
    else if status_code =? 404 then
      Raises (Api ResourceNotFoundError ("Resource not found: " +:+ msg)
                  (Some status_code) data)
    else if status_code =? 429 then
      Raises (Api QuotaExceededError ("Quota exceeded: " +:+ msg)
                  (Some status_code) data)
    else if (500 <=? status_code) && (status_code <? 600) then
      Raises (Api GoogleSheetsAPIError ("Server error: " +:+ msg)
                  (Some status_code) data)
    else
      Raises (Api GoogleSheetsAPIError
                  ("HTTP " +:+ pretty status_code +:+ ": " +:+ msg)
                  (Some status_code) data).

(** The [except] clauses of [make_api_request]; any other exception
    leaves the function as it is. *)
Definition api_failure (e : exn) : exn :=
  match e with
  | Lib (Timeout _) =>
      Api GoogleSheetsAPIError
          "Request timeout - Google Sheets API did not respond in time" None PNone
  | Lib (ConnectionError _) =>
      Api GoogleSheetsAPIError
          "Connection error - Unable to reach Google Sheets API" None PNone
  | Lib (HTTPError s) | Lib (RequestException s) =>
      Api GoogleSheetsAPIError ("Request failed: " +:+ s) None PNone
  | _ => e
  end.

(** [not headers or "Authorization" not in headers]. *)
Definition lacks_authorization (headers : option (gmap string string)) : bool :=
  match headers with
  | None => true
  | Some h => bool_decide (h = ∅) || negb (bool_decide (is_Some (h !! "Authorization")))
  end.

Definition bearer (access_token : pyval) : string :=
  "Bearer " +:+ py_str repr_str access_token.

(** The parsing of a successful response's body. *)
Definition response_data (r : response) : pyval :=
  match content r with
  | [] => PNone
  | _ :: _ =>
      match response_json r with
      | inl v => v
      | inr _ => PDict [("content", PStr (text r))]
      end
  end.

(** The first statement of [make_api_request]: a token is obtained and
    attached unless the caller's headers already authorize. *)
Definition with_authorization (headers : option (gmap string string))
  : M (gmap string string) :=
  if lacks_authorization headers then
    access_token <- get_access_token ;;
    let headers := match headers with
                   | Some h => if bool_decide (h = ∅) then ∅ else h
                   | None => ∅
                   end in
    ret (<["Content-Type" := "application/json"]>
           (<["Authorization" := bearer access_token]> headers))
  else ret (default ∅ headers).

(** The request, and its single repetition with a refreshed token after
    a 401. *)
Definition send (method url : string) (headers : gmap string string)
    (params json_data data : pyval) (retry_auth : bool) : M response :=
  response <- requests_request
                (ApiRequest method url headers params json_data data 30) ;;
  if (status_code response =? 401) && retry_auth then
    access_token <- refresh_access_token ;;
    let headers := <["Authorization" := bearer access_token]> headers in
    requests_request (ApiRequest method url headers params json_data data 30)
  else ret response.

Definition make_api_request (method endpoint : string)
    (headers : option (gmap string string))
    (params json_data data : pyval) (retry_auth : bool) : M pyval :=
  let url := BASE_URL +:+ endpoint in
  headers <- with_authorization headers ;;
  try_except
    (response <- send method url headers params json_data data retry_auth ;;
     lift (_raise_for_status response) ;;
     ret (response_data response))
    api_failure.

(** *** Structured output models *)

(** Whether the model's field validation accepts a dict of keyword
    arguments.  Every field of every model is optional, and unknown
    keys are ignored; what is left is the type check of each field. *)
Variable validates : model → list (string * pyval) → bool.

(** The model called on the unpacked [response_data]: unpacking with two
    stars needs a mapping. *)
Definition construct (m : model) (response_data : pyval) : M tool_result :=
  match response_data with
  | PDict kvs =>
      if validates m kvs then ret (Structured m kvs)
      else raise PydanticValidationError
  | _ => raise TypeError
  end.

(** [d[key] = value] under a condition. *)
Definition set_if (cond : bool) (key : string) (value : pyval)
    (d : list (string * pyval)) : list (string * pyval) :=
  if cond then set_key key value d else d.

Definition required (name : string) : exn :=
  Api ValidationError (name +:+ " is required") None PNone.

Definition bad_value_input_option : exn :=
  Api ValidationError "value_input_option must be 'RAW' or 'USER_ENTERED'"
      None PNone.

(** [value_input_option not in ["RAW", "USER_ENTERED"]]. *)
Definition not_in_raw_user_entered (v : pyval) : bool :=
  match v with
  | PStr s => negb (String.eqb s "RAW" || String.eqb s "USER_ENTERED")
  | _ => true
  end.

Definition str (v : pyval) : string := py_str repr_str v.

(** *** Spreadsheets resource tools *)

Definition spreadsheets_create (title locale auto_recalc time_zone sheets : pyval)
  : M tool_result :=
  if negb (truthy title) then raise (required "title") else
  let properties := [("title", title)] in
  let properties := set_if (truthy locale) "locale" locale properties in
  let properties := set_if (truthy auto_recalc) "autoRecalc" auto_recalc properties in
  let properties := set_if (truthy time_zone) "timeZone" time_zone properties in
  let json_data := [("properties", PDict properties)] in
  let json_data := set_if (truthy sheets) "sheets" sheets json_data in
  response_data <- make_api_request "POST" "/v4/spreadsheets" None PNone
                     (PDict json_data) PNone true ;;
  construct Spreadsheet response_data.

Definition spreadsheets_get (spreadsheet_id ranges include_grid_data fields : pyval)
  : M tool_result :=
  if negb (truthy spreadsheet_id) then raise (required "spreadsheet_id") else
  let params := [] in
  let params := set_if (truthy ranges) "ranges" ranges params in
  let params := set_if (negb (is_None include_grid_data))
                       "includeGridData" include_grid_data params in
  let params := set_if (truthy fields) "fields" fields params in
  let endpoint := "/v4/spreadsheets/" +:+ str spreadsheet_id in
  response_data <- make_api_request "GET" endpoint None (PDict params)
                     PNone PNone true ;;
  construct Spreadsheet response_data.

Definition spreadsheets_batch_update
    (spreadsheet_id requests include_spreadsheet_in_response
     response_ranges response_include_grid_data : pyval) : M tool_result :=
  if negb (truthy spreadsheet_id) then raise (required "spreadsheet_id") else
  if negb (truthy requests) then raise (required "requests") else
  let json_data := [("requests", requests)] in
  let json_data := set_if (negb (is_None include_spreadsheet_in_response))
                          "includeSpreadsheetInResponse"
                          include_spreadsheet_in_response json_data in
  let json_data := set_if (truthy response_ranges)
                          "responseRanges" response_ranges json_data in
  let json_data := set_if (negb (is_None response_include_grid_data))
                          "responseIncludeGridData"
                          response_include_grid_data json_data in
  let endpoint := "/v4/spreadsheets/" +:+ str spreadsheet_id +:+ ":batchUpdate" in
  response_data <- make_api_request "POST" endpoint None PNone
                     (PDict json_data) PNone true ;;
  construct BatchUpdateResponse response_data.

Definition spreadsheets_get_by_data_filter
    (spreadsheet_id data_filters include_grid_data : pyval) : M tool_result :=
  if negb (truthy spreadsheet_id) then raise (required "spreadsheet_id") else
  if negb (truthy data_filters) then raise (required "data_filters") else
  let json_data := [("dataFilters", data_filters)] in
  let json_data := set_if (negb (is_None include_grid_data))
                          "includeGridData" include_grid_data json_data in
  let endpoint := "/v4/spreadsheets/" +:+ str spreadsheet_id
                  +:+ ":getByDataFilter" in
  response_data <- make_api_request "POST" endpoint None PNone
                     (PDict json_data) PNone true ;;
  construct Spreadsheet response_data.

(** *** Values resource tools *)

Definition values_get
    (spreadsheet_id range major_dimension value_render_option
     date_time_render_option : pyval) : M tool_result :=
  if negb (truthy spreadsheet_id) then raise (required "spreadsheet_id") else
  if negb (truthy range) then raise (required "range") else
  let params := [] in
  let params := set_if (truthy major_dimension)
                       "majorDimension" major_dimension params in
  let params := set_if (truthy value_render_option)
                       "valueRenderOption" value_render_option params in
  let params := set_if (truthy date_time_render_option)
                       "dateTimeRenderOption" date_time_render_option params in
  let endpoint := "/v4/spreadsheets/" +:+ str spreadsheet_id
                  +:+ "/values/" +:+ str range in
  response_data <- make_api_request "GET" endpoint None (PDict params)
                     PNone PNone true ;;
  construct ValueRange response_data.

Definition values_update
    (spreadsheet_id range values value_input_option major_dimension
     include_values_in_response response_value_render_option
     response_date_time_render_option : pyval) : M tool_result :=
  if negb (truthy spreadsheet_id) then raise (required "spreadsheet_id") else
  if negb (truthy range) then raise (required "range") else
  if negb (truthy values) then raise (required "values") else
  if not_in_raw_user_entered value_input_option
  then raise bad_value_input_option else
  let params := [("valueInputOption", value_input_option)] in
  let params := set_if (negb (is_None include_values_in_response))
                       "includeValuesInResponse"
                       include_values_in_response params in
  let params := set_if (truthy response_value_render_option)
                       "responseValueRenderOption"
                       response_value_render_option params in
  let params := set_if (truthy response_date_time_render_option)
                       "responseDateTimeRenderOption"
                       response_date_time_render_option params in
  let json_data := [("values", values)] in
  let json_data := set_if (truthy major_dimension)
                          "majorDimension" major_dimension json_data in
  let endpoint := "/v4/spreadsheets/" +:+ str spreadsheet_id
                  +:+ "/values/" +:+ str range in
  response_data <- make_api_request "PUT" endpoint None (PDict params)
                     (PDict json_data) PNone true ;;
  ret (Plain response_data).

Definition values_append
    (spreadsheet_id range values value_input_option major_dimension
     insert_data_option include_values_in_response
     response_value_render_option response_date_time_render_option : pyval)
  : M tool_result :=
  if negb (truthy spreadsheet_id) then raise (required "spreadsheet_id") else
  if negb (truthy range) then raise (required "range") else
  if negb (truthy values) then raise (required "values") else
  if not_in_raw_user_entered value_input_option
  then raise bad_value_input_option else
  let params := [("valueInputOption", value_input_option)] in
  let params := set_if (truthy insert_data_option)
                       "insertDataOption" insert_data_option params in
  let params := set_if (negb (is_None include_values_in_response))
                       "includeValuesInResponse"
                       include_values_in_response params in
  let params := set_if (truthy response_value_render_option)
                       "responseValueRenderOption"
                       response_value_render_option params in
  let params := set_if (truthy response_date_time_render_option)
                       "responseDateTimeRenderOption"
                       response_date_time_render_option params in
  let json_data := [("values", values)] in
  let json_data := set_if (truthy major_dimension)
                          "majorDimension" major_dimension json_data in
  let endpoint := "/v4/spreadsheets/" +:+ str spreadsheet_id
                  +:+ "/values/" +:+ str range +:+ ":append" in
  response_data <- make_api_request "POST" endpoint None (PDict params)
                     (PDict json_data) PNone true ;;
  ret (Plain response_data).

Definition values_clear (spreadsheet_id range : pyval) : M tool_result :=
  if negb (truthy spreadsheet_id) then raise (required "spreadsheet_id") else
  if negb (truthy range) then raise (required "range") else
  let endpoint := "/v4/spreadsheets/" +:+ str spreadsheet_id
                  +:+ "/values/" +:+ str range +:+ ":clear" in
  response_data <- make_api_request "POST" endpoint None PNone
                     (PDict []) PNone true ;;
  ret (Plain response_data).

Definition values_batch_get
    (spreadsheet_id ranges major_dimension value_render_option
     date_time_render_option : pyval) : M tool_result :=
  if negb (truthy spreadsheet_id) then raise (required "spreadsheet_id") else
  if negb (truthy ranges) then raise (required "ranges") else
  let params := [("ranges", ranges)] in
  let params := set_if (truthy major_dimension)
                       "majorDimension" major_dimension params in
  let params := set_if (truthy value_render_option)
                       "valueRenderOption" value_render_option params in
  let params := set_if (truthy date_time_render_option)
                       "dateTimeRenderOption" date_time_render_option params in
  let endpoint := "/v4/spreadsheets/" +:+ str spreadsheet_id
                  +:+ "/values:batchGet" in
  response_data <- make_api_request "GET" endpoint None (PDict params)
                     PNone PNone true ;;
  construct BatchGetValuesResponse response_data.

(** The body shared by [values_batch_update] and
    [values_batch_update_by_data_filter], which build the same JSON. *)
Definition batch_update_json
    (data value_input_option include_values_in_response
     response_value_render_option response_date_time_render_option : pyval)
  : list (string * pyval) :=
  let json_data := [("data", data); ("valueInputOption", value_input_option)] in
  let json_data := set_if (negb (is_None include_values_in_response))
                          "includeValuesInResponse"
                          include_values_in_response json_data in
  let json_data := set_if (truthy response_value_render_option)
                          "responseValueRenderOption"
                          response_value_render_option json_data in
  set_if (truthy response_date_time_render_option)
         "responseDateTimeRenderOption"
         response_date_time_render_option json_data.

Definition values_batch_update
    (spreadsheet_id data value_input_option include_values_in_response
     response_value_render_option response_date_time_render_option : pyval)
  : M tool_result :=
  if negb (truthy spreadsheet_id) then raise (required "spreadsheet_id") else
  if negb (truthy data) then raise (required "data") else
  if not_in_raw_user_entered value_input_option
  then raise bad_value_input_option else
  let json_data :=
    batch_update_json data value_input_option include_values_in_response
      response_value_render_option response_date_time_render_option in
  let endpoint := "/v4/spreadsheets/" +:+ str spreadsheet_id
                  +:+ "/values:batchUpdate" in
  response_data <- make_api_request "POST" endpoint None PNone
                     (PDict json_data) PNone true ;;
  construct BatchUpdateValuesResponse response_data.

Definition values_batch_clear (spreadsheet_id ranges : pyval) : M tool_result :=
  if negb (truthy spreadsheet_id) then raise (required "spreadsheet_id") else
  if negb (truthy ranges) then raise (required "ranges") else
  let json_data := [("ranges", ranges)] in
  let endpoint := "/v4/spreadsheets/" +:+ str spreadsheet_id
                  +:+ "/values:batchClear" in
  response_data <- make_api_request "POST" endpoint None PNone
                     (PDict json_data) PNone true ;;
  construct BatchClearValuesResponse response_data.

Definition values_batch_get_by_data_filter
    (spreadsheet_id data_filters major_dimension value_render_option
     date_time_render_option : pyval) : M tool_result :=
  if negb (truthy spreadsheet_id) then raise (required "spreadsheet_id") else
  if negb (truthy data_filters) then raise (required "data_filters") else
  let json_data := [("dataFilters", data_filters)] in
  let json_data := set_if (truthy major_dimension)
                          "majorDimension" major_dimension json_data in
  let json_data := set_if (truthy value_render_option)
                          "valueRenderOption" value_render_option json_data in
  let json_data := set_if (truthy date_time_render_option)
                          "dateTimeRenderOption"
                          date_time_render_option json_data in
  let endpoint := "/v4/spreadsheets/" +:+ str spreadsheet_id
                  +:+ "/values:batchGetByDataFilter" in
  response_data <- make_api_request "POST" endpoint None PNone
                     (PDict json_data) PNone true ;;
  ret (Plain response_data).

Definition values_batch_update_by_data_filter
    (spreadsheet_id data value_input_option include_values_in_response
     response_value_render_option response_date_time_render_option : pyval)
  : M tool_result :=
  if negb (truthy spreadsheet_id) then raise (required "spreadsheet_id") else
  if negb (truthy data) then raise (required "data") else
  if not_in_raw_user_entered value_input_option
  then raise bad_value_input_option else
  let json_data :=
    batch_update_json data value_input_option include_values_in_response
      response_value_render_option response_date_time_render_option in
  let endpoint := "/v4/spreadsheets/" +:+ str spreadsheet_id
                  +:+ "/values:batchUpdateByDataFilter" in
  response_data <- make_api_request "POST" endpoint None PNone
                     (PDict json_data) PNone true ;;
  ret (Plain response_data).

Definition values_batch_clear_by_data_filter
    (spreadsheet_id data_filters : pyval) : M tool_result :=
  if negb (truthy spreadsheet_id) then raise (required "spreadsheet_id") else
  if negb (truthy data_filters) then raise (required "data_filters") else
  let json_data := [("dataFilters", data_filters)] in
  let endpoint := "/v4/spreadsheets/" +:+ str spreadsheet_id
                  +:+ "/values:batchClearByDataFilter" in
  response_data <- make_api_request "POST" endpoint None PNone
                     (PDict json_data) PNone true ;;
  ret (Plain response_data).

(** *** Developer metadata resource tools *)

Definition developer_metadata_get (spreadsheet_id metadata_id : pyval)
  : M tool_result :=
  if negb (truthy spreadsheet_id) then raise (required "spreadsheet_id") else
  if negb (truthy metadata_id) then raise (required "metadata_id") else
  let endpoint := "/v4/spreadsheets/" +:+ str spreadsheet_id
                  +:+ "/developerMetadata/" +:+ str metadata_id in
  response_data <- make_api_request "GET" endpoint None PNone
                     PNone PNone true ;;
  construct DeveloperMetadata response_data.

Definition developer_metadata_search (spreadsheet_id data_filters : pyval)
  : M tool_result :=
  if negb (truthy spreadsheet_id) then raise (required "spreadsheet_id") else
  if negb (truthy data_filters) then raise (required "data_filters") else
  let json_data := [("dataFilters", data_filters)] in
  let endpoint := "/v4/spreadsheets/" +:+ str spreadsheet_id
                  +:+ "/developerMetadata:search" in
  response_data <- make_api_request "POST" endpoint None PNone
                     (PDict json_data) PNone true ;;
  construct SearchDeveloperMetadataResponse response_data.

(** *** Dispatch *)

Definition invoke (c : tool_call) : M tool_result :=
  match c with
  | SpreadsheetsCreate a b c d e => spreadsheets_create a b c d e
  | SpreadsheetsGet a b c d => spreadsheets_get a b c d
  | SpreadsheetsBatchUpdate a b c d e => spreadsheets_batch_update a b c d e
  | SpreadsheetsGetByDataFilter a b c => spreadsheets_get_by_data_filter a b c
  | ValuesGet a b c d e => values_get a b c d e
  | ValuesUpdate a b c d e f g h => values_update a b c d e f g h
  | ValuesAppend a b c d e f g h i => values_append a b c d e f g h i
  | ValuesClear a b => values_clear a b
  | ValuesBatchGet a b c d e => values_batch_get a b c d e
  | ValuesBatchUpdate a b c d e f => values_batch_update a b c d e f
  | ValuesBatchClear a b => values_batch_clear a b
  | ValuesBatchGetByDataFilter a b c d e =>
      values_batch_get_by_data_filter a b c d e
  | ValuesBatchUpdateByDataFilter a b c d e f =>
      values_batch_update_by_data_filter a b c d e f
  | ValuesBatchClearByDataFilter a b => values_batch_clear_by_data_filter a b
  | DeveloperMetadataGet a b => developer_metadata_get a b
  | DeveloperMetadataSearch a b => developer_metadata_search a b
  end.

End Program.

(** ** Utility tools *)

Definition available_tools : list string :=
  ["spreadsheets_create"; "spreadsheets_get"; "spreadsheets_batch_update";
   "spreadsheets_get_by_data_filter";
   "values_get"; "values_update"; "values_append"; "values_clear";
   "values_batch_get"; "values_batch_update"; "values_batch_clear";
   "values_batch_get_by_data_filter"; "values_batch_update_by_data_filter";
   "values_batch_clear_by_data_filter";
   "developer_metadata_get"; "developer_metadata_search";
   "get_server_info"; "test_connection"; "refresh_nango_token"].

Section Utilities.

Variable repr_str : string → string.
Variable w : world.

(** [bool(_cached_access_token or get_access_token())] inside
    [try]/[except Exception], which gives [False]: the second operand of
    [or] is evaluated only when the slot is false in a condition. *)
Definition has_token : state → bool * state :=
  λ st,
    match (cached <- read_cache ;;
           if truthy cached then ret cached
           else get_access_token repr_str w) st with
    | (Returns v, st') => (truthy v, st')
    | (Raises _, st') => (false, st')
    end.

Definition get_server_info : M pyval :=
  λ st,
    let (has_token, st') := has_token st in
    (Returns
       (PDict
          [("server_name", PStr "Google Sheets API v4 MCP Server");
           ("base_url", PStr BASE_URL);
           ("auth_method", PStr "nango_oauth");
           ("auth_configured", PBool has_token);
           ("environment_variables",
            PDict
              [("nango_connection_id",
                PBool (truthy (os_environ_get w "NANGO_CONNECTION_ID")));
               ("nango_integration_id",
                PBool (truthy (os_environ_get w "NANGO_INTEGRATION_ID")));
               ("nango_base_url",
                PBool (truthy (os_environ_get w "NANGO_BASE_URL")));
               ("nango_secret_key",
                PBool (truthy (os_environ_get w "NANGO_SECRET_KEY")))]);
           ("available_tools", PList (map PStr available_tools))]),
     st').

End Utilities.

(** ** The specification's descriptions

    The words of the specification about payloads, as definitions of their
    own, to be compared with what the program computes. *)

(** The field [outer.inner] of a JSON payload: present when the payload is
    an object whose [outer] member is an object with an [inner] member. *)
Definition nested_field (outer inner : string) (payload : pyval) : option pyval :=
  match payload with
  | PDict kvs =>
      match lookup_key outer kvs with
      | Some (PDict kvs') => lookup_key inner kvs'
      | _ => None
      end
  | _ => None
  end.

(** A JSON object lacks the field [outer.inner]: it has no [outer] member,
    or its [outer] member is an object without an [inner] member.  (A
    payload that is not an object, or whose [outer] member is not one, does
    not count.) *)
Definition object_lacks_field (outer inner : string) (payload : pyval) : bool :=
  match payload with
  | PDict kvs =>
      match lookup_key outer kvs with
      | None => true
      | Some (PDict kvs') =>
          match lookup_key inner kvs' with None => true | Some _ => false end
      | Some _ => false
      end
  | _ => false
  end.

(** [n] calls in a row, with their results. *)
Fixpoint repeatedly {A} (n : nat) (m : M A) : M (list A) :=
  match n with
  | O => ret []
  | S n' => a <- m ;; rest <- repeatedly n' m ;; ret (a :: rest)
  end.

(** The arguments an operation requires, by name. *)
Definition required_arguments (c : tool_call) : list (string * pyval) :=
  match c with
  | SpreadsheetsCreate title _ _ _ _ => [("title", title)]
  | SpreadsheetsGet spreadsheet_id _ _ _ => [("spreadsheet_id", spreadsheet_id)]
  | SpreadsheetsBatchUpdate spreadsheet_id requests _ _ _ =>
      [("spreadsheet_id", spreadsheet_id); ("requests", requests)]
  | SpreadsheetsGetByDataFilter spreadsheet_id data_filters _
  | ValuesBatchGetByDataFilter spreadsheet_id data_filters _ _ _
  | ValuesBatchClearByDataFilter spreadsheet_id data_filters
  | DeveloperMetadataSearch spreadsheet_id data_filters =>
      [("spreadsheet_id", spreadsheet_id); ("data_filters", data_filters)]
  | ValuesGet spreadsheet_id range _ _ _
  | ValuesClear spreadsheet_id range =>
      [("spreadsheet_id", spreadsheet_id); ("range", range)]
  | ValuesUpdate spreadsheet_id range values _ _ _ _ _
  | ValuesAppend spreadsheet_id range values _ _ _ _ _ _ =>
      [("spreadsheet_id", spreadsheet_id); ("range", range); ("values", values)]
  | ValuesBatchGet spreadsheet_id ranges _ _ _
  | ValuesBatchClear spreadsheet_id ranges =>
      [("spreadsheet_id", spreadsheet_id); ("ranges", ranges)]
  | ValuesBatchUpdate spreadsheet_id data _ _ _ _
  | ValuesBatchUpdateByDataFilter spreadsheet_id data _ _ _ _ =>
      [("spreadsheet_id", spreadsheet_id); ("data", data)]
  | DeveloperMetadataGet spreadsheet_id metadata_id =>
      [("spreadsheet_id", spreadsheet_id); ("metadata_id", metadata_id)]
  end.

(** The enumerated argument [value_input_option], where an operation has
    one. *)
Definition value_input_option_of (c : tool_call) : option pyval :=
  match c with
  | ValuesUpdate _ _ _ value_input_option _ _ _ _
  | ValuesAppend _ _ _ value_input_option _ _ _ _ _
  | ValuesBatchUpdate _ _ value_input_option _ _ _
  | ValuesBatchUpdateByDataFilter _ _ value_input_option _ _ _ =>
      Some value_input_option
  | _ => None
  end.

(** The arguments fail a local precondition check: a required argument is
    missing (empty, or otherwise false in a condition), or the enumerated
    argument is neither of its two values. *)
Definition fails_precondition (c : tool_call) : Prop :=
  (∃ name v, (name, v) ∈ required_arguments c ∧ truthy v = false) ∨
  (∃ v, value_input_option_of c = Some v ∧
        v ≠ PStr "RAW" ∧ v ≠ PStr "USER_ENTERED").

(** The [error.message] field of the response payload, when parseable. *)
Definition payload_message (r : response) : option pyval :=
  match json r with
  | JsonValue v => nested_field "error" "message" v
  | JsonInvalid _ => None
  end.

(** The message an error carries according to the specification: the
    payload's [error.message]; failing that the raw response text; failing
    that the generic message. *)
Definition described_message (repr_str : string → string) (r : response) : string :=
  match payload_message r with
  | Some m => py_str repr_str m
  | None =>
      if String.eqb (text r) "" then
        "HTTP " +:+ pretty (status_code r) +:+ " error"
      else text r
  end.

(** ** Further descriptions

    Predicates and tables used to state what the program does beyond the
    sentences of the specification. *)

(** A broker body from which the token cannot be read: it is not an
    object, or its [credentials] member is not an object. *)
Definition malformed_credentials (body : pyval) : bool :=
  match body with
  | PDict kvs =>
      match lookup_key "credentials" kvs with
      | None | Some (PDict _) => false
      | Some _ => true
      end
  | _ => true
  end.

(** The message of the first local check that an invocation fails: the
    required arguments in the order of the signature, then the enumerated
    argument. *)
Definition first_violation (c : tool_call) : option string :=
  match List.filter (λ a, negb (truthy a.2)) (required_arguments c) with
  | (name, _) :: _ => Some (name +:+ " is required")
  | [] =>
      match value_input_option_of c with
      | Some (PStr s) =>
          if String.eqb s "RAW" || String.eqb s "USER_ENTERED" then None
          else Some "value_input_option must be 'RAW' or 'USER_ENTERED'"
      | Some _ => Some "value_input_option must be 'RAW' or 'USER_ENTERED'"
      | None => None
      end
  end.

(** The model an operation builds from the response, if it builds one. *)
Definition built_model (c : tool_call) : option model :=
  match c with
  | SpreadsheetsCreate _ _ _ _ _ | SpreadsheetsGet _ _ _ _
  | SpreadsheetsGetByDataFilter _ _ _ => Some Spreadsheet
  | SpreadsheetsBatchUpdate _ _ _ _ _ => Some BatchUpdateResponse
  | ValuesGet _ _ _ _ _ => Some ValueRange
  | ValuesBatchGet _ _ _ _ _ => Some BatchGetValuesResponse
  | ValuesBatchUpdate _ _ _ _ _ _ => Some BatchUpdateValuesResponse
  | ValuesBatchClear _ _ => Some BatchClearValuesResponse
  | DeveloperMetadataGet _ _ => Some DeveloperMetadata
  | DeveloperMetadataSearch _ _ => Some SearchDeveloperMetadataResponse
  | ValuesUpdate _ _ _ _ _ _ _ _ | ValuesAppend _ _ _ _ _ _ _ _ _
  | ValuesClear _ _ | ValuesBatchGetByDataFilter _ _ _ _ _
  | ValuesBatchUpdateByDataFilter _ _ _ _ _ _
  | ValuesBatchClearByDataFilter _ _ => None
  end.

(** A request that carries [token]: the arguments of the call, the JSON
    content type, the bearer header made of [token], and the caller's
    other headers. *)
Definition authorized_request (repr_str : string → string)
    (method url : string) (caller_headers : gmap string string)
    (params json_data data : pyval) (token : pyval) (req : api_request) : Prop :=
  req_method req = method ∧ req_url req = url ∧
  req_params req = params ∧ req_json req = json_data ∧
  req_data req = data ∧ req_timeout req = 30 ∧
  req_headers req !! "Content-Type" = Some "application/json" ∧
  req_headers req !! "Authorization" = Some (bearer repr_str token) ∧
  (∀ k, k ≠ "Authorization" → k ≠ "Content-Type" →
        req_headers req !! k = caller_headers !! k).

(** ** Sample worlds

    Concrete environments, responses and oracles on which the statements
    below are exercised. *)

(** A [repr] for strings without quotes, backslashes or control
    characters. *)
Definition plain_repr (s : string) : string := "'" +:+ s +:+ "'".

Definition accept_all (m : model) (kvs : list (string * pyval)) : bool := true.

Definition full_environ : gmap string string :=
  <["NANGO_CONNECTION_ID" := "conn-1"]>
    (<["NANGO_INTEGRATION_ID" := "google-sheet"]>
       (<["NANGO_BASE_URL" := "https://api.nango.dev"]>
          (<["NANGO_SECRET_KEY" := "s3cret"]> ∅))).

(** Only the base URL and the connection id are set; the integration id is
    set to the empty string. *)
Definition partial_environ : gmap string string :=
  <["NANGO_CONNECTION_ID" := "conn-1"]>
    (<["NANGO_INTEGRATION_ID" := ""]>
       (<["NANGO_BASE_URL" := "https://api.nango.dev"]> ∅)).

Definition body_bytes : list Byte.byte := [Byte.x7b; Byte.x7d].

(** A response whose body is the JSON text [txt], decoding to [v]. *)
Definition json_response (sc : Z) (txt : string) (v : pyval) : response :=
  Response sc "" "" body_bytes txt (JsonValue v).

(** A response whose body is text that is not JSON. *)
Definition text_response (sc : Z) (txt : string) : response :=
  Response sc "" "" body_bytes txt
           (JsonInvalid "Expecting value: line 1 column 1 (char 0)").

(** A response without a body. *)
Definition empty_response (sc : Z) : response :=
  Response sc "" "" [] ""
           (JsonInvalid "Expecting value: line 1 column 1 (char 0)").

(** A double-quoted JSON string literal. *)
Definition quoted (s : string) : string :=
  String "034"%char s +:+ String "034"%char "".

(** Status 404 with the body [{"error":{"message":"Not found"}}]. *)
Definition not_found_response : response :=
  json_response 404
    ("{" +:+ quoted "error" +:+ ":{" +:+ quoted "message" +:+ ":"
     +:+ quoted "Not found" +:+ "}}")
    (PDict [("error", PDict [("message", PStr "Not found")])]).

Definition credentials_body (token : pyval) : pyval :=
  PDict [("credentials", PDict [("access_token", token)])].

(** The broker's body [{"credentials":{"access_token":<token>}}], where
    [lit] is the JSON text of the token. *)
Definition credentials_response (lit : string) (token : pyval) : response :=
  json_response 200
    ("{" +:+ quoted "credentials" +:+ ":{" +:+ quoted "access_token" +:+ ":"
     +:+ lit +:+ "}}")
    (credentials_body token).

Definition no_network (n : nat) : transport := ConnectionFailed "unreachable".

Definition initial_state : state := State PNone [] [].

(** A world with the given environment and no reachable network. *)
Definition offline_world (env : gmap string string) : world :=
  World env (λ n _, no_network n) (λ n _, no_network n).

(** The configuration is complete and the broker answers every call with
    the same response; the target API is unreachable. *)
Definition broker_world (r : response) : world :=
  World full_environ (λ _ _, Responded r) (λ n _, no_network n).

(** The configuration is complete, the broker hands out [token], and the
    target API answers its n-th call with [answers n]. *)
Definition api_world (token : pyval) (answers : nat → transport) : world :=
  World full_environ
        (λ _ _, Responded (credentials_response (quoted (py_str plain_repr token))
                                                token))
        (λ n _, answers n).

Definition with_token (token : pyval) : state := State token [] [].

(** ** Properties *)

(** *** The monad *)

(** Unfolds the operations of the monad. *)
Ltac run :=
  unfold bind, read_cache, write_cache, lift, ret, raise, try_except.

(** Splits on the truth value of every argument that a wrapper checks. *)
Ltac case_checks :=
  repeat match goal with
         | |- context [negb (truthy ?x)] =>
             let E := fresh "E" in destruct (truthy x) eqn:E; simpl
         end.

Lemma bind_returns {A B} (m : M A) (k : A → M B) st a st' :
  m st = (Returns a, st') → bind m k st = k a st'.
Proof. intros H. unfold bind. by rewrite H. Qed.

Lemma bind_raises {A B} (m : M A) (k : A → M B) st e st' :
  m st = (Raises e, st') → bind m k st = (Raises e, st').
Proof. intros H. unfold bind. by rewrite H. Qed.

(** *** Missing configuration (C3) *)

Lemma filter_sublist (P : string → bool) (l S : list string) :
  NoDup l → S `sublist_of` l →
  (∀ x, x ∈ l → (x ∈ S ↔ P x = true)) →
  List.filter P l = S.
Proof.
  intros Hnd Hsub. induction Hsub as [|x l1 l2 Hsub IH|x l1 l2 Hsub IH];
    intros HP; [done| |].
  - apply NoDup_cons in Hnd as [Hx Hnd]. simpl.
    assert (P x = true) as -> by (apply HP; left).
    f_equal. apply IH; [done|]. intros y Hy.
    rewrite <- (HP y) by (by right). rewrite elem_of_cons.
    split; [tauto|]. intros [->|?]; [done|done].
  - apply NoDup_cons in Hnd as [Hx Hnd]. simpl.
    assert (P x = false) as ->.
    { destruct (P x) eqn:E; [|done]. apply HP in E; [|left].
      exfalso. apply Hx. by eapply elem_of_sublist. }
    apply IH; [done|]. intros y Hy. apply HP. by right.
Qed.

Lemma required_vars_NoDup : NoDup required_vars.
Proof. apply (bool_decide_unpack _). by vm_compute. Qed.

Lemma unset_iff w var :
  negb (truthy (os_environ_get w var)) = true ↔
  environ w !! var = None ∨ environ w !! var = Some "".
Proof.
  unfold os_environ_get. destruct (environ w !! var) as [s|]; simpl.
  - destruct (String.eqb_spec s "") as [->|Hs]; simpl.
    + split; [by right|done].
    + split; [done|]. intros [?|[= ?]]; done.
  - split; [by left|done].
Qed.

(** C3. For every non-empty selection [S] of the four required settings
    (in the order the program lists them): in an environment where exactly
    the settings of [S] are unset or empty, [get_connection_credentials]
    raises [AuthenticationError] with the message that lists exactly the
    names of [S], and leaves the state, hence the log of network calls,
    as it was. *)
Theorem C3_missing_configuration repr_str w st (S : list string) :
  S ≠ [] →
  S `sublist_of` required_vars →
  (∀ var, var ∈ required_vars →
     (var ∈ S ↔ environ w !! var = None ∨ environ w !! var = Some "")) →
  get_connection_credentials repr_str w st =
    (Raises (Api AuthenticationError
                 ("Missing required environment variables: "
                  +:+ String.concat ", " S) None PNone), st).
Proof.
  intros Hne Hsub Hmiss.
  assert (missing_vars w = S) as Hm.
  { apply filter_sublist; [apply required_vars_NoDup|done|].
    intros x Hx. rewrite unset_iff. by apply Hmiss. }
  unfold get_connection_credentials. rewrite Hm.
  destruct S; [done|reflexivity].
Qed.

Lemma C3_missing_configuration_witness :
  get_connection_credentials plain_repr (offline_world partial_environ)
    initial_state =
    (Raises (Api AuthenticationError
       "Missing required environment variables: NANGO_INTEGRATION_ID, NANGO_SECRET_KEY"
       None PNone), initial_state).
Proof.
  apply (C3_missing_configuration plain_repr (offline_world partial_environ)
           initial_state ["NANGO_INTEGRATION_ID"; "NANGO_SECRET_KEY"]).
  - discriminate.
  - apply sublist_cons, sublist_skip, sublist_cons, sublist_skip, sublist_nil.
  - intros var Hvar. unfold required_vars in Hvar.
    repeat (apply elem_of_cons in Hvar as [->|Hvar]);
      [| | | |by apply elem_of_nil in Hvar].
    + split; [|intros [H|H]; vm_compute in H; discriminate].
      intros H. repeat (apply elem_of_cons in H as [H|H]; [discriminate|]).
      by apply elem_of_nil in H.
    + split; [intros _; right; reflexivity|intros _; left].
    + split; [|intros [H|H]; vm_compute in H; discriminate].
      intros H. repeat (apply elem_of_cons in H as [H|H]; [discriminate|]).
      by apply elem_of_nil in H.
    + split; [intros _; left; reflexivity|intros _; right; left].
Defined.

(** *** The HTTP library *)

Lemma raise_for_status_rejects r :
  ok r = false → ∃ s, raise_for_status r = inr (HTTPError s).
Proof.
  unfold ok, raise_for_status. intros H.
  apply negb_false_iff, andb_true_iff in H as [Hlo Hhi]. rewrite Hlo. simpl.
  destruct (status_code r <? 500) eqn:E; [by eexists|].
  assert ((500 <=? status_code r) = true) as -> by lia.
  rewrite Hhi. by eexists.
Qed.

Lemma raise_for_status_accepts r :
  ok r = true → raise_for_status r = inl tt.
Proof.
  unfold ok, raise_for_status. intros H. apply negb_true_iff in H.
  destruct (400 <=? status_code r) eqn:Hlo; simpl in *.
  - rewrite H. assert ((status_code r <? 500) = false) as -> by lia.
    by rewrite andb_false_r.
  - assert ((500 <=? status_code r) = false) as -> by lia. done.
Qed.

(** *** Broker failures (C5) *)

(** C5, amended.  With a complete configuration, whatever the broker call
    does: a response with a status from 400 to 599 (one that
    [raise_for_status] rejects) becomes [AuthenticationError] with the invalid-secret-key message for
    401, the connection-not-found message for 404, and otherwise the broker
    error message made of the status and the response text; a timeout
    becomes [AuthenticationError] with the timeout message; a connection
    failure or any other failure of the call becomes [AuthenticationError]
    too. *)
Theorem C5_broker_failures repr_str w st :
  missing_vars w = [] →
  let answer := broker w (length (broker_log st)) (credentials_request repr_str w) in
  let result := (get_connection_credentials repr_str w st).1 in
  match answer with
  | Responded r =>
      ok r = false →
      (status_code r = 401 →
         result = Raises (Api AuthenticationError
                              "Invalid Nango secret key" None PNone)) ∧
      (status_code r = 404 →
         result = Raises (Api AuthenticationError
                              "Nango connection not found" None PNone)) ∧
      (status_code r ≠ 401 → status_code r ≠ 404 →
         result = Raises (Api AuthenticationError
                              ("Nango API error: " +:+ pretty (status_code r)
                               +:+ " - " +:+ text r) None PNone))
  | TimedOut _ =>
      result = Raises (Api AuthenticationError
                 "Timeout while connecting to Nango authentication service"
                 None PNone)
  | ConnectionFailed _ | RequestFailed _ | Crashed _ =>
      ∃ msg, result = Raises (Api AuthenticationError msg None PNone)
  end.
Proof.
  intros Hcfg. cbv zeta. unfold get_connection_credentials, requests_get.
  rewrite Hcfg.
  destruct (broker w _ _) as [r|s|s|s|s]; simpl; eauto.
  intros Hok. destruct (raise_for_status_rejects r Hok) as [s ->]. simpl.
  repeat split.
  - intros ->. reflexivity.
  - intros ->. reflexivity.
  - intros H1 H4.
    assert ((status_code r =? 401) = false) as -> by lia.
    assert ((status_code r =? 404) = false) as -> by lia. reflexivity.
Qed.

Lemma C5_broker_failures_witness :
  (get_connection_credentials plain_repr
     (broker_world (text_response 503 "upstream down")) initial_state).1 =
  Raises (Api AuthenticationError
              "Nango API error: 503 - upstream down" None PNone).
Proof.
  pose proof (C5_broker_failures plain_repr
                (broker_world (text_response 503 "upstream down"))
                initial_state eq_refl) as H.
  cbv zeta in H.
  change (broker _ _ _) with (Responded (text_response 503 "upstream down")) in H.
  cbv iota beta in H.
  destruct (H eq_refl) as (_ & _ & H3).
  apply H3; discriminate.
Defined.

(** C5, as stated, at the statuses 302 and 304.  Neither is a success
    status, yet a 302 with a JSON body is handed back as the credentials,
    and a 304 without a body gives the message of the JSON decoder, which
    holds neither the status nor the body. *)
Lemma C5_counterexample :
  (get_connection_credentials plain_repr
     (broker_world (json_response 302 "{}" (PDict []))) initial_state).1 =
    Returns (PDict []) ∧
  (get_connection_credentials plain_repr
     (broker_world (empty_response 304)) initial_state).1 =
    Raises (Api AuthenticationError
      "Unexpected error getting Nango credentials: Expecting value: line 1 column 1 (char 0)"
      None PNone).
Proof. split; reflexivity. Qed.

(** *** Error classification (C2) *)

Lemma append_assoc (a b c : string) : (a +:+ b) +:+ c = a +:+ (b +:+ c).
Proof.
  induction a as [|x a IH]; [reflexivity|].
  change (String x ((a +:+ b) +:+ c) = String x (a +:+ (b +:+ c))).
  by rewrite IH.
Qed.

(** What [_raise_for_status] formats is the message the specification
    describes, for a response whose text is not empty when its body
    decodes. *)
Lemma error_message_described repr_str r :
  (∀ v, json r = JsonValue v → text r ≠ "") →
  py_str repr_str (error_message r) = described_message repr_str r.
Proof.
  intros Hwf. unfold error_message, described_message, payload_message,
    response_json.
  destruct (json r) as [v|msg] eqn:Hj; simpl.
  - assert (String.eqb (text r) "" = false) as Ht.
    { apply String.eqb_neq. by eapply Hwf. }
    rewrite Ht. simpl.
    destruct v as [| | | | |xs|kvs]; simpl; try reflexivity.
    destruct (lookup_key "error" kvs) as [[| | | | |xs|kvs']|]; simpl;
      try reflexivity.
    destruct (lookup_key "message" kvs'); reflexivity.
  - destruct (String.eqb (text r) ""); reflexivity.
Qed.

(** C2, amended.  For every response with a status from 400 to 599 (one
    whose [ok] is false), [_raise_for_status] raises the error whose class
    the status code determines: 400 [ValidationError], 401 [AuthenticationError], 403
    [AuthorizationError], 404 [ResourceNotFoundError], 429
    [QuotaExceededError], any other status the base [GoogleSheetsAPIError].
    The error carries the status code, and its message ends with the
    payload's [error.message] when the payload has one, else with the raw
    response text, else with the generic "HTTP <code> error". *)
Theorem C2_error_classification repr_str r :
  ok r = false →
  (∀ v, json r = JsonValue v → text r ≠ "") →
  ∃ c label data,
    _raise_for_status repr_str r =
      Raises (Api c (label +:+ described_message repr_str r)
                  (Some (status_code r)) data) ∧
    (status_code r = 400 → c = ValidationError) ∧
    (status_code r = 401 → c = AuthenticationError) ∧
    (status_code r = 403 → c = AuthorizationError) ∧
    (status_code r = 404 → c = ResourceNotFoundError) ∧
    (status_code r = 429 → c = QuotaExceededError) ∧
    (status_code r ∉ [400; 401; 403; 404; 429] → c = GoogleSheetsAPIError).
Proof.
  intros Hok Hwf. unfold _raise_for_status. rewrite Hok.
  rewrite (error_message_described repr_str r Hwf).
  cbv zeta.
  repeat match goal with
         | |- context [if ?z =? ?k then _ else _] =>
             destruct (Z.eqb_spec z k) as [->|?]
         end;
    try (do 3 eexists; split; [reflexivity|];
         repeat split; first [done | intros H; exfalso; apply H; set_solver]).
  destruct ((500 <=? status_code r) && (status_code r <? 600)).
  - do 3 eexists. split; [reflexivity|]. repeat split; done.
  - exists GoogleSheetsAPIError, ("HTTP " +:+ pretty (status_code r) +:+ ": ").
    eexists. split; [by rewrite !append_assoc|]. repeat split; done.
Qed.

Lemma C2_error_classification_witness :
  ok not_found_response = false ∧
  ∃ label data,
    _raise_for_status plain_repr not_found_response =
    Raises (Api ResourceNotFoundError (label +:+ "Not found") (Some 404) data).
Proof.
  split; [reflexivity|].
  destruct (C2_error_classification plain_repr not_found_response eq_refl)
    as (c & label & data & Heq & _ & _ & _ & H404 & _).
  - intros v _. discriminate.
  - exists label, data. rewrite <- (H404 eq_refl). exact Heq.
Defined.

(** C2, as stated, at status 304.  The status is not a 2xx one, yet
    [_raise_for_status] raises nothing, and [make_api_request] hands the
    absent body back as a successful result. *)
Lemma C2_counterexample :
  let r := empty_response 304 in
  ¬ (200 ≤ status_code r < 300) ∧
  _raise_for_status plain_repr r = Returns tt ∧
  (make_api_request plain_repr (api_world (PStr "tok") (λ _, Responded r))
     "GET" "/v4/spreadsheets/abc" None PNone PNone PNone true
     (with_token (PStr "tok"))).1 = Returns PNone.
Proof.
  cbv zeta. split; [|split; reflexivity].
  simpl. lia.
Qed.

(** *** Token cache (C4, C9) *)

Lemma get_access_token_hit repr_str w st :
  is_None (_cached_access_token st) = false →
  get_access_token repr_str w st = (Returns (_cached_access_token st), st).
Proof.
  intros H. unfold get_access_token. run. by rewrite H.
Qed.

(** A fetch with a complete configuration, an accepting broker and a
    decodable body: the provider is called once and hands the body over. *)
Lemma get_connection_credentials_success repr_str w st r body :
  missing_vars w = [] →
  broker w (length (broker_log st)) (credentials_request repr_str w) = Responded r →
  ok r = true →
  json r = JsonValue body →
  get_connection_credentials repr_str w st =
    (Returns body,
     State (_cached_access_token st)
           (broker_log st ++ [credentials_request repr_str w]) (api_log st)).
Proof.
  intros Hcfg Hb Hok Hj. unfold get_connection_credentials, requests_get.
  rewrite Hcfg, Hb. simpl. rewrite (raise_for_status_accepts r Hok).
  unfold response_json. by rewrite Hj.
Qed.

(** The token cache on bodies of the expected shape.  When the slot holds
    a token, any number of calls of [get_access_token] in a row return it
    and change nothing: the provider is not invoked.  When the slot is empty
    and the broker's answer decodes to a body with a
    [credentials.access_token] field holding a token, one call invokes the
    provider once, stores the token and returns it.  When the body is an
    object that lacks the field, the call raises [AuthenticationError]. *)
Lemma token_cache_contract repr_str w st :
  (is_None (_cached_access_token st) = false →
   ∀ n, repeatedly n (get_access_token repr_str w) st =
        (Returns (replicate n (_cached_access_token st)), st)) ∧
  (_cached_access_token st = PNone →
   missing_vars w = [] →
   ∀ r body,
     broker w (length (broker_log st)) (credentials_request repr_str w)
       = Responded r →
     ok r = true →
     json r = JsonValue body →
     (∀ token,
        nested_field "credentials" "access_token" body = Some token →
        truthy token = true →
        get_access_token repr_str w st =
          (Returns token,
           State token (broker_log st ++ [credentials_request repr_str w])
                 (api_log st))) ∧
     (object_lacks_field "credentials" "access_token" body = true →
      ∃ st',
        get_access_token repr_str w st =
          (Raises (Api AuthenticationError
                       "No access token found in Nango credentials" None PNone),
           st') ∧
        broker_log st' = (broker_log st ++ [credentials_request repr_str w])%list)).
Proof.
  split.
  - intros Hhit n. induction n as [|n IH]; [reflexivity|].
    simpl. rewrite (bind_returns _ _ _ _ _ (get_access_token_hit _ _ _ Hhit)).
    by rewrite (bind_returns _ _ _ _ _ IH).
  - intros Hmiss Hcfg r body Hb Hok Hj.
    pose proof (get_connection_credentials_success repr_str w st r body
                  Hcfg Hb Hok Hj) as Hfetch.
    split.
    + intros token Hfield Htruthy.
      unfold get_access_token. run. rewrite Hmiss. simpl. rewrite Hfetch.
      unfold nested_field in Hfield.
      destruct body as [| | | | | |kvs]; try discriminate.
      destruct (lookup_key "credentials" kvs) as [[| | | | | |kvs']|] eqn:Hc;
        try discriminate.
      simpl. rewrite Hc. simpl. rewrite Hfield. simpl. rewrite Htruthy.
      reflexivity.
    + intros Habsent.
      unfold get_access_token. run. rewrite Hmiss. simpl. rewrite Hfetch.
      unfold object_lacks_field in Habsent.
      destruct body as [| | | | | |kvs]; try discriminate. simpl.
      destruct (lookup_key "credentials" kvs) as [[| | | | | |kvs']|] eqn:Hc;
        try discriminate; simpl.
      * destruct (lookup_key "access_token" kvs'); [discriminate|].
        simpl. eexists. split; reflexivity.
      * eexists. split; reflexivity.
Qed.

Lemma token_cache_contract_example :
  repeatedly 3 (get_access_token plain_repr (offline_world ∅))
             (with_token (PStr "tok")) =
    (Returns [PStr "tok"; PStr "tok"; PStr "tok"], with_token (PStr "tok")) ∧
  get_access_token plain_repr
    (broker_world (credentials_response (quoted "fresh") (PStr "fresh")))
    initial_state =
    (Returns (PStr "fresh"),
     State (PStr "fresh")
       [credentials_request plain_repr
          (broker_world (credentials_response (quoted "fresh") (PStr "fresh")))]
       []) ∧
  ∃ st',
    get_access_token plain_repr
      (broker_world (json_response 200 "{}" (PDict []))) initial_state =
    (Raises (Api AuthenticationError
                 "No access token found in Nango credentials" None PNone), st').
Proof.
  split; [|split].
  - exact (proj1 (token_cache_contract plain_repr (offline_world ∅)
                    (with_token (PStr "tok"))) eq_refl 3%nat).
  - destruct (proj2 (token_cache_contract plain_repr
                       (broker_world (credentials_response (quoted "fresh")
                                                           (PStr "fresh")))
                       initial_state)
                eq_refl eq_refl _ _ eq_refl eq_refl eq_refl) as [Hpresent _].
    exact (Hpresent (PStr "fresh") eq_refl eq_refl).
  - destruct (proj2 (token_cache_contract plain_repr
                       (broker_world (json_response 200 "{}" (PDict [])))
                       initial_state)
                eq_refl eq_refl _ _ eq_refl eq_refl eq_refl) as [_ Habsent].
    destruct (Habsent eq_refl) as (st' & Hst' & _). by exists st'.
Defined.

(** C4. The failing input.  The broker answers 200 with the body
    [{"credentials": null}], in which the field [credentials.access_token]
    is absent.  [get_access_token] calls the provider once and then raises
    [AttributeError], which is not [AuthenticationError] and not an error
    of the taxonomy at all; the slot stays empty. *)
Theorem C4_null_credentials_raises_AttributeError :
  let body := PDict [("credentials", PNone)] in
  let w := broker_world
             (json_response 200 ("{" +:+ quoted "credentials" +:+ ": null}")
                            body) in
  nested_field "credentials" "access_token" body = None ∧
  get_access_token plain_repr w initial_state =
    (Raises AttributeError,
     State PNone [credentials_request plain_repr w] []) ∧
  is_api_error AttributeError = false.
Proof. repeat split; reflexivity. Qed.

(** C9. The failing input.  The broker answers with an empty string as
    [credentials.access_token].  The first [get_access_token] raises
    [AuthenticationError] but leaves the empty string in the slot; the
    second call, with no further call to the broker, returns that empty
    string as the token. *)
Theorem C9_failed_fetch_is_served :
  let w := broker_world (credentials_response (quoted "") (PStr "")) in
  let st1 := State (PStr "") [credentials_request plain_repr w] [] in
  get_access_token plain_repr w initial_state =
    (Raises (Api AuthenticationError
                 "No access token found in Nango credentials" None PNone), st1) ∧
  get_access_token plain_repr w st1 = (Returns (PStr ""), st1).
Proof. split; reflexivity. Qed.

(** When the provider itself fails, or the field is absent or null, the
    slot stays empty: the next call fetches again. *)
Lemma get_access_token_failure_slot repr_str w st e st' :
  _cached_access_token st = PNone →
  get_access_token repr_str w st = (Raises e, st') →
  _cached_access_token st' = PNone ∨
  (truthy (_cached_access_token st') = false ∧
   e = Api AuthenticationError
           "No access token found in Nango credentials" None PNone).
Proof.
  intros Hmiss. unfold get_access_token. run. rewrite Hmiss. simpl.
  destruct (get_connection_credentials repr_str w st) as [[body|e0] st0] eqn:Hf.
  - assert (_cached_access_token st0 = PNone) as Hst0.
    { revert Hf. unfold get_connection_credentials, requests_get. run.
      repeat case_match; intros; simplify_eq; done. }
    destruct (py_get body "credentials" (PDict [])) as [inner|e1];
      [|intros; simplify_eq; by left].
    destruct (py_get inner "access_token" PNone) as [token|e2];
      [|intros; simplify_eq; by left].
    destruct (truthy token) eqn:Ht; simpl; intros; simplify_eq.
    right. by split.
  - intros; simplify_eq. left.
    revert Hf. unfold get_connection_credentials, requests_get. run.
    repeat case_match; intros; simplify_eq; done.
Qed.

(** *** Request executor (C7, C1) *)

Lemma _raise_for_status_ok repr_str r :
  ok r = true → _raise_for_status repr_str r = Returns tt.
Proof. intros H. unfold _raise_for_status. by rewrite H. Qed.

(** [_raise_for_status] raises errors of the taxonomy only, which the
    handlers of [make_api_request] let through. *)
Lemma _raise_for_status_api repr_str r e :
  _raise_for_status repr_str r = Raises e →
  is_api_error e = true ∧ api_failure e = e.
Proof.
  unfold _raise_for_status. repeat case_match; intros; simplify_eq; done.
Qed.

(** Once the headers are ready, [make_api_request] sends, classifies and
    parses; only what [send] raises goes through the handlers. *)
Lemma make_api_request_sent repr_str w method endpoint headers params
    json_data data retry_auth st h st1 :
  with_authorization repr_str w headers st = (Returns h, st1) →
  make_api_request repr_str w method endpoint headers params json_data data
                   retry_auth st =
    match send repr_str w method (BASE_URL +:+ endpoint) h params json_data
               data retry_auth st1 with
    | (Returns r, st2) =>
        (match _raise_for_status repr_str r with
         | Returns _ => Returns (response_data r)
         | Raises e => Raises e
         end, st2)
    | (Raises e, st2) => (Raises (api_failure e), st2)
    end.
Proof.
  intros Hauth. unfold make_api_request. cbv zeta.
  rewrite (bind_returns _ _ _ _ _ Hauth). run.
  destruct (send _ _ _ _ _ _ _ _ _ _) as [[r|e] st2]; [|done].
  destruct (_raise_for_status repr_str r) as [[]|e] eqn:Hr; [done|].
  by destruct (_raise_for_status_api _ _ _ Hr) as [_ ->].
Qed.


(** From the final response on, [make_api_request] classifies and parses. *)
Lemma make_api_request_final repr_str w method endpoint headers params
    json_data data retry_auth st h st1 r st2 :
  with_authorization repr_str w headers st = (Returns h, st1) →
  send repr_str w method (BASE_URL +:+ endpoint) h params json_data data
       retry_auth st1 = (Returns r, st2) →
  make_api_request repr_str w method endpoint headers params json_data data
                   retry_auth st =
    (match _raise_for_status repr_str r with
     | Returns _ => Returns (response_data r)
     | Raises e => Raises e
     end, st2).
Proof.
  intros Hauth Hsend.
  rewrite (make_api_request_sent _ _ _ _ _ _ _ _ _ _ _ _ Hauth).
  by rewrite Hsend.
Qed.

(** C7. When the final response of [make_api_request] is successful, the
    call returns: [None] when the body is absent; the decoded JSON when the
    body is present and valid JSON; the raw text under the key ["content"]
    when the body is present and not valid JSON. *)
Theorem C7_success_body repr_str w method endpoint headers params json_data
    data retry_auth st h st1 r st2 :
  with_authorization repr_str w headers st = (Returns h, st1) →
  send repr_str w method (BASE_URL +:+ endpoint) h params json_data data
       retry_auth st1 = (Returns r, st2) →
  ok r = true →
  ∃ result,
    make_api_request repr_str w method endpoint headers params json_data data
                     retry_auth st = (Returns result, st2) ∧
    (content r = [] → result = PNone) ∧
    (content r ≠ [] → ∀ v, json r = JsonValue v → result = v) ∧
    (content r ≠ [] → ∀ msg, json r = JsonInvalid msg →
       result = PDict [("content", PStr (text r))]).
Proof.
  intros Hauth Hsend Hok. exists (response_data r).
  rewrite (make_api_request_final _ _ _ _ _ _ _ _ _ _ _ _ _ _ Hauth Hsend).
  rewrite (_raise_for_status_ok _ _ Hok). split; [done|].
  unfold response_data, response_json.
  destruct (content r); repeat split; try done; intros _ ? ->; done.
Qed.

Lemma C7_success_body_witness :
  make_api_request plain_repr
    (api_world (PStr "tok") (λ _, Responded (text_response 200 "pong")))
    "GET" "/v4/spreadsheets/abc" None PNone PNone PNone true
    (with_token (PStr "tok")) =
  (Returns (PDict [("content", PStr "pong")]),
   State (PStr "tok") []
     [ApiRequest "GET" "https://sheets.googleapis.com/v4/spreadsheets/abc"
        (<["Content-Type" := "application/json"]>
           (<["Authorization" := "Bearer tok"]> ∅))
        PNone PNone PNone 30]).
Proof.
  destruct (C7_success_body plain_repr
              (api_world (PStr "tok") (λ _, Responded (text_response 200 "pong")))
              "GET" "/v4/spreadsheets/abc" None PNone PNone PNone true
              (with_token (PStr "tok")) _ _ _ _ eq_refl eq_refl eq_refl)
    as (result & Hrun & _ & _ & Htext).
  rewrite Hrun. f_equal. f_equal. by eapply Htext.
Defined.

(** The provider never touches the log of API calls or the slot; what it
    raises passes the handlers of [make_api_request] unchanged; when it
    returns, it has called the broker once. *)
Lemma get_connection_credentials_effects repr_str w st o st' :
  get_connection_credentials repr_str w st = (o, st') →
  api_log st' = api_log st ∧
  _cached_access_token st' = _cached_access_token st ∧
  (∀ e, o = Raises e → api_failure e = e) ∧
  (∀ v, o = Returns v →
     broker_log st' = (broker_log st ++ [credentials_request repr_str w])%list).
Proof.
  unfold get_connection_credentials, requests_get, credentials_failure. run.
  repeat case_match; intros; simplify_eq; simpl;
    repeat split; intros; simplify_eq; done.
Qed.

Lemma get_access_token_effects repr_str w st o st' :
  get_access_token repr_str w st = (o, st') →
  api_log st' = api_log st ∧
  (∀ e, o = Raises e → api_failure e = e) ∧
  (∀ token, o = Returns token →
     _cached_access_token st' = token ∧
     (_cached_access_token st = PNone →
      broker_log st' = (broker_log st ++ [credentials_request repr_str w])%list)).
Proof.
  unfold get_access_token. run.
  destruct (is_None (_cached_access_token st)) eqn:Hc.
  - destruct (get_connection_credentials repr_str w st) as [[body|e0] st0] eqn:Hf;
      destruct (get_connection_credentials_effects _ _ _ _ _ Hf)
        as (Hlog & Hslot & Hexn & Hbroker).
    + unfold py_get.
      repeat case_match; intros; simplify_eq; simpl;
        repeat split; intros; simplify_eq; eauto.
    + intros; simplify_eq. repeat split; intros; simplify_eq; eauto.
  - intros [= <- <-]. split; [done|]. split; [intros ? [=]|].
    intros token [= <-]. split; [done|].
    intros Hnone. rewrite Hnone in Hc. discriminate.
Qed.

Lemma with_authorization_api_log repr_str w headers st o st' :
  with_authorization repr_str w headers st = (o, st') →
  api_log st' = api_log st.
Proof.
  unfold with_authorization. destruct (lacks_authorization headers).
  - run. destruct (get_access_token repr_str w st) as [[token|e] st0] eqn:Hg;
      destruct (get_access_token_effects _ _ _ _ _ Hg) as (Hlog & _);
      intros; simplify_eq; done.
  - run. intros; simplify_eq; done.
Qed.



(** A 401 answered by a 200 after the refresh: the call succeeds, and the
    broker has been called once. *)
Example retry_then_success :
  let w := api_world (PStr "fresh")
             (λ n, match n with
                   | O => Responded (empty_response 401)
                   | _ => Responded (json_response 200 "{}" (PDict []))
                   end) in
  let run := make_api_request plain_repr w "GET" "/v4/spreadsheets/abc" None
               PNone PNone PNone true (with_token (PStr "stale")) in
  run.1 = Returns (PDict []) ∧
  _cached_access_token run.2 = PStr "fresh" ∧
  length (broker_log run.2) = 1%nat ∧
  length (api_log run.2) = 2%nat.
Proof. repeat split; reflexivity. Qed.

(** *** Operation boundary (C6) *)

(** C6. The failing input.  With a token in the slot, the target API
    answers the request of [spreadsheets_get] with status 200 and no body:
    [make_api_request] returns [None], and building the model from it
    raises [TypeError], which is outside the error taxonomy. *)
Theorem C6_empty_body_raises_TypeError :
  let w := api_world (PStr "tok") (λ _, Responded (empty_response 200)) in
  make_api_request plain_repr w "GET" "/v4/spreadsheets/abc" None (PDict [])
                   PNone PNone true (with_token (PStr "tok"))
    = (Returns PNone,
       State (PStr "tok") []
         [ApiRequest "GET" "https://sheets.googleapis.com/v4/spreadsheets/abc"
            (<["Content-Type" := "application/json"]>
               (<["Authorization" := "Bearer tok"]> ∅))
            (PDict []) PNone PNone 30]) ∧
  (spreadsheets_get plain_repr w accept_all (PStr "abc") PNone PNone PNone
                    (with_token (PStr "tok"))).1 = Raises TypeError ∧
  is_api_error TypeError = false.
Proof. repeat split; reflexivity. Qed.

(** *** Local validation (C8, C10) *)

Lemma not_in_raw_user_entered_true v :
  v ≠ PStr "RAW" → v ≠ PStr "USER_ENTERED" →
  not_in_raw_user_entered v = true.
Proof.
  intros Hraw Huser. destruct v as [| | | |s| |]; try reflexivity. simpl.
  destruct (String.eqb_spec s "RAW") as [->|_]; [done|].
  destruct (String.eqb_spec s "USER_ENTERED") as [->|_]; done.
Qed.

(** C8. For every operation wrapper and every state: when a required
    argument is missing or [value_input_option] is neither ["RAW"] nor
    ["USER_ENTERED"], the call raises [ValidationError] and the state,
    hence the log of network calls, is as before the call. *)
Theorem C8_local_validation repr_str w validates c st :
  fails_precondition c →
  ∃ message,
    invoke repr_str w validates c st =
      (Raises (Api ValidationError message None PNone), st).
Proof.
  intros [(name & v & Hin & Hv)|(v & Hopt & Hraw & Huser)].
  - destruct c; simpl in Hin;
      repeat match goal with
             | H : _ ∈ _ :: _ |- _ => apply elem_of_cons in H as [H|H]
             | H : _ ∈ [] |- _ => by apply elem_of_nil in H
             end;
      simplify_eq; simpl;
      unfold spreadsheets_create, spreadsheets_get, spreadsheets_batch_update,
        spreadsheets_get_by_data_filter, values_get, values_update,
        values_append, values_clear, values_batch_get, values_batch_update,
        values_batch_clear, values_batch_get_by_data_filter,
        values_batch_update_by_data_filter, values_batch_clear_by_data_filter,
        developer_metadata_get, developer_metadata_search;
      case_checks; try discriminate; unfold raise; eauto.
  - pose proof (not_in_raw_user_entered_true v Hraw Huser) as Hbad.
    destruct c; simpl in Hopt; simplify_eq; simpl;
      unfold values_update, values_append, values_batch_update,
        values_batch_update_by_data_filter;
      case_checks; rewrite ?Hbad; unfold raise; eauto.
Qed.

Lemma C8_local_validation_witness :
  (∃ message,
     invoke plain_repr (offline_world ∅) accept_all
       (ValuesUpdate (PStr "abc") (PStr "") (PList [PList [PInt 1]])
          (PStr "USER_ENTERED") PNone PNone PNone PNone) initial_state =
     (Raises (Api ValidationError message None PNone), initial_state)) ∧
  (∃ message,
     invoke plain_repr (offline_world ∅) accept_all
       (ValuesUpdate (PStr "abc") (PStr "A1") (PList [PList [PInt 1]])
          (PStr "FORMULA") PNone PNone PNone PNone) initial_state =
     (Raises (Api ValidationError message None PNone), initial_state)).
Proof.
  split.
  - apply C8_local_validation. left. exists "range", (PStr "").
    split; [|reflexivity]. simpl. apply elem_of_cons. right.
    apply elem_of_cons. by left.
  - apply C8_local_validation. right. exists (PStr "FORMULA").
    split; [reflexivity|]. split; discriminate.
Defined.

(** C10. [developer_metadata_get] with a non-empty [spreadsheet_id] and
    [metadata_id] equal to the integer 0 raises [ValidationError] with the
    message that [metadata_id] is required, and leaves the state, hence
    the log of network calls, as it was: the check of the required argument
    takes 0 for a missing value. *)
Theorem C10_metadata_id_zero repr_str w validates spreadsheet_id st :
  truthy spreadsheet_id = true →
  developer_metadata_get repr_str w validates spreadsheet_id (PInt 0) st =
    (Raises (Api ValidationError "metadata_id is required" None PNone), st).
Proof.
  intros H. unfold developer_metadata_get. rewrite H. reflexivity.
Qed.

Lemma C10_metadata_id_zero_witness :
  developer_metadata_get plain_repr (offline_world ∅) accept_all
    (PStr "abc") (PInt 0) initial_state =
  (Raises (Api ValidationError "metadata_id is required" None PNone),
   initial_state).
Proof. apply C10_metadata_id_zero. reflexivity. Defined.

(** ** Further properties *)

(** *** Credential provider *)

(** X1. Whatever the environment and the broker do,
    [get_connection_credentials] fails with [AuthenticationError] only
    (without status code or payload); it never touches the token slot or
    the log of API calls; and it calls the broker once when the
    configuration is complete, never otherwise. *)
Theorem X1_provider_fails_with_AuthenticationError repr_str w st :
  let run := get_connection_credentials repr_str w st in
  (∀ e, run.1 = Raises e → ∃ msg, e = Api AuthenticationError msg None PNone) ∧
  _cached_access_token run.2 = _cached_access_token st ∧
  api_log run.2 = api_log st ∧
  broker_log run.2 =
    (if bool_decide (missing_vars w = [])
     then broker_log st ++ [credentials_request repr_str w]
     else broker_log st)%list.
Proof.
  cbv zeta. unfold get_connection_credentials, requests_get. run.
  destruct (missing_vars w) as [|v vs]; simpl.
  - destruct (broker w _ _) as [r|s|s|s|s]; simpl;
      try (repeat split; [intros e [= <-]; eauto]).
    unfold raise_for_status, response_json, credentials_failure.
    repeat case_match; simpl; repeat split; intros; simplify_eq; eauto.
  - repeat split. intros e [= <-]. eauto.
Qed.

(** X2. With the four settings present, the one call to the broker is a GET
    of [<base url>/connection/<connection id>] with the secret key as bearer
    token, the integration id as [provider_config_key], [refresh_token] set
    to ["true"], and a timeout of 30 seconds. *)
Theorem X2_broker_request repr_str w st id integration base secret :
  environ w !! "NANGO_CONNECTION_ID" = Some id →
  environ w !! "NANGO_INTEGRATION_ID" = Some integration →
  environ w !! "NANGO_BASE_URL" = Some base →
  environ w !! "NANGO_SECRET_KEY" = Some secret →
  id ≠ "" → integration ≠ "" → base ≠ "" → secret ≠ "" →
  broker_log (get_connection_credentials repr_str w st).2 =
    (broker_log st ++
     [BrokerRequest (base +:+ "/connection/" +:+ id)
        {[ "Authorization" := "Bearer " +:+ secret ]}
        (PDict [("provider_config_key", PStr integration);
                ("refresh_token", PStr "true")])
        30])%list.
Proof.
  intros Hid Hint Hbase Hsec Nid Nint Nbase Nsec.
  assert (missing_vars w = []) as Hcfg.
  { unfold missing_vars, required_vars, os_environ_get. simpl.
    rewrite Hid, Hint, Hbase, Hsec. simpl.
    apply String.eqb_neq in Nid, Nint, Nbase, Nsec.
    by rewrite Nid, Nint, Nbase, Nsec. }
  unfold get_connection_credentials, requests_get. rewrite Hcfg.
  assert (credentials_request repr_str w =
          BrokerRequest (base +:+ "/connection/" +:+ id)
            {[ "Authorization" := "Bearer " +:+ secret ]}
            (PDict [("provider_config_key", PStr integration);
                    ("refresh_token", PStr "true")]) 30) as ->.
  { unfold credentials_request, os_environ_get.
    by rewrite Hid, Hint, Hbase, Hsec. }
  repeat case_match; simplify_eq; reflexivity.
Qed.

Lemma X2_broker_request_witness :
  broker_log (get_connection_credentials plain_repr
                (offline_world full_environ) initial_state).2 =
    [BrokerRequest "https://api.nango.dev/connection/conn-1"
       {[ "Authorization" := "Bearer s3cret" ]}
       (PDict [("provider_config_key", PStr "google-sheet");
               ("refresh_token", PStr "true")])
       30].
Proof.
  apply (X2_broker_request plain_repr (offline_world full_environ)
           initial_state "conn-1" "google-sheet" "https://api.nango.dev"
           "s3cret");
    first [reflexivity | discriminate].
Defined.

(** X3. A broker answer that is accepted by its status but whose body does
    not decode as JSON, and a failure of the call that is neither a timeout
    nor a connection error, both end in [AuthenticationError] with the
    message ["Unexpected error getting Nango credentials: "] followed by
    the text of the underlying error. *)
Theorem X3_unexpected_broker_errors repr_str w st :
  missing_vars w = [] →
  let result := (get_connection_credentials repr_str w st).1 in
  let unexpected s :=
    Raises (Api AuthenticationError
                ("Unexpected error getting Nango credentials: " +:+ s)
                None PNone) in
  match broker w (length (broker_log st)) (credentials_request repr_str w) with
  | Responded r =>
      ok r = true → ∀ msg, json r = JsonInvalid msg → result = unexpected msg
  | RequestFailed s | Crashed s => result = unexpected s
  | TimedOut _ | ConnectionFailed _ => True
  end.
Proof.
  intros Hcfg. cbv zeta. unfold get_connection_credentials, requests_get.
  rewrite Hcfg. destruct (broker w _ _) as [r|s|s|s|s]; simpl; try done.
  intros Hok msg Hj. rewrite (raise_for_status_accepts r Hok).
  unfold response_json. by rewrite Hj.
Qed.

Lemma X3_unexpected_broker_errors_witness :
  (get_connection_credentials plain_repr
     (broker_world (text_response 200 "<html>gateway</html>"))
     initial_state).1 =
  Raises (Api AuthenticationError
    "Unexpected error getting Nango credentials: Expecting value: line 1 column 1 (char 0)"
    None PNone).
Proof.
  pose proof (X3_unexpected_broker_errors plain_repr
                (broker_world (text_response 200 "<html>gateway</html>"))
                initial_state eq_refl) as H.
  cbv zeta in H.
  change (broker _ _ _)
    with (Responded (text_response 200 "<html>gateway</html>")) in H.
  cbv iota beta in H.
  exact (H eq_refl _ eq_refl).
Defined.

(** *** Token cache *)

(** From an empty slot, a returned token is true in a condition. *)
Lemma get_access_token_miss_truthy repr_str w st token st' :
  _cached_access_token st = PNone →
  get_access_token repr_str w st = (Returns token, st') →
  truthy token = true.
Proof.
  intros Hmiss. unfold get_access_token. run. rewrite Hmiss. simpl.
  destruct (get_connection_credentials repr_str w st) as [[body|e0] st0];
    [|discriminate].
  destruct (py_get body "credentials" (PDict [])) as [inner|e1];
    [|discriminate].
  destruct (py_get inner "access_token" PNone) as [tok|e2]; [|discriminate].
  destruct (truthy tok) eqn:Ht; simpl; [|discriminate].
  by intros [= <- _].
Qed.

(** X4. A token returned by [get_access_token] is what the slot holds
    afterwards, and is never [None].  From an empty slot it is a value that
    is true in a condition, obtained with exactly one call to the broker;
    from a filled slot the call changes nothing.  The log of API calls is
    never touched. *)
Theorem X4_returned_token repr_str w st token st' :
  get_access_token repr_str w st = (Returns token, st') →
  _cached_access_token st' = token ∧
  token ≠ PNone ∧
  api_log st' = api_log st ∧
  (_cached_access_token st = PNone →
   truthy token = true ∧
   broker_log st' = (broker_log st ++ [credentials_request repr_str w])%list) ∧
  (_cached_access_token st ≠ PNone → st' = st).
Proof.
  intros Hrun.
  destruct (get_access_token_effects _ _ _ _ _ Hrun) as (Hlog & _ & Htok).
  destruct (Htok token eq_refl) as [Hslot Hbroker].
  destruct (is_None (_cached_access_token st)) eqn:Hnone.
  - assert (_cached_access_token st = PNone) as Hmiss
        by (by destruct (_cached_access_token st)).
    pose proof (get_access_token_miss_truthy _ _ _ _ _ Hmiss Hrun) as Ht.
    split; [done|]. split; [by intros ->|]. split; [done|].
    split; [intros _; split; [done|by apply Hbroker]|done].
  - assert (_cached_access_token st ≠ PNone) as Hfilled
        by (intros H; rewrite H in Hnone; discriminate).
    rewrite (get_access_token_hit _ _ _ Hnone) in Hrun.
    injection Hrun as <- <-.
    split; [done|]. split; [done|]. split; [done|]. split; done.
Qed.

Lemma X4_returned_token_witness :
  let w := broker_world (credentials_response (quoted "fresh") (PStr "fresh")) in
  get_access_token plain_repr w initial_state =
    (Returns (PStr "fresh"),
     State (PStr "fresh") [credentials_request plain_repr w] []) ∧
  PStr "fresh" ≠ PNone ∧
  truthy (PStr "fresh") = true.
Proof.
  intros w.
  destruct (X4_returned_token plain_repr w initial_state (PStr "fresh") _
              eq_refl)
    as (_ & Hnone & _ & Hmiss & _).
  destruct (Hmiss eq_refl) as [Ht _].
  split; [reflexivity|]. by split.
Defined.

(** X5. When the broker's body is not an object, or its [credentials]
    member is not an object, [get_access_token] raises [AttributeError],
    which is outside the error taxonomy; the broker has been called once
    and the slot is still empty. *)
Theorem X5_malformed_credentials_body repr_str w st r body :
  _cached_access_token st = PNone →
  missing_vars w = [] →
  broker w (length (broker_log st)) (credentials_request repr_str w)
    = Responded r →
  ok r = true →
  json r = JsonValue body →
  malformed_credentials body = true →
  get_access_token repr_str w st =
    (Raises AttributeError,
     State PNone (broker_log st ++ [credentials_request repr_str w])
           (api_log st)).
Proof.
  intros Hmiss Hcfg Hb Hok Hj Hbad.
  unfold get_access_token. run. rewrite Hmiss. simpl.
  rewrite (get_connection_credentials_success _ _ _ _ _ Hcfg Hb Hok Hj).
  rewrite Hmiss. unfold malformed_credentials in Hbad.
  destruct body as [| | | | | |kvs]; try reflexivity. simpl.
  destruct (lookup_key "credentials" kvs) as [[| | | | | |kvs']|];
    try discriminate; reflexivity.
Qed.

Lemma X5_malformed_credentials_body_witness :
  get_access_token plain_repr
    (broker_world (json_response 200 "{}" (PDict [("credentials", PNone)])))
    initial_state =
  (Raises AttributeError,
   State PNone
     [credentials_request plain_repr
        (broker_world (json_response 200 "{}" (PDict [("credentials", PNone)])))]
     []).
Proof.
  apply (X5_malformed_credentials_body plain_repr
           (broker_world (json_response 200 "{}" (PDict [("credentials", PNone)])))
           initial_state
           (json_response 200 "{}" (PDict [("credentials", PNone)]))
           (PDict [("credentials", PNone)]));
    reflexivity.
Defined.


(** X7. Any value that the broker hands out as [credentials.access_token]
    and that is false in a condition without being [None] (an empty string,
    0, [False], an empty list or object) makes the first
    [get_access_token] raise [AuthenticationError] and stay in the slot;
    the next call returns that value without calling the broker. *)
Theorem X7_falsy_token_is_cached repr_str w st r body v :
  _cached_access_token st = PNone →
  missing_vars w = [] →
  broker w (length (broker_log st)) (credentials_request repr_str w)
    = Responded r →
  ok r = true →
  json r = JsonValue body →
  nested_field "credentials" "access_token" body = Some v →
  truthy v = false →
  v ≠ PNone →
  let st1 := State v (broker_log st ++ [credentials_request repr_str w])
                   (api_log st) in
  get_access_token repr_str w st =
    (Raises (Api AuthenticationError
                 "No access token found in Nango credentials" None PNone),
     st1) ∧
  get_access_token repr_str w st1 = (Returns v, st1).
Proof.
  intros Hmiss Hcfg Hb Hok Hj Hfield Hfalsy Hnone st1. split.
  - unfold get_access_token. run. rewrite Hmiss. simpl.
    rewrite (get_connection_credentials_success _ _ _ _ _ Hcfg Hb Hok Hj).
    unfold nested_field in Hfield.
    destruct body as [| | | | | |kvs]; try discriminate.
    destruct (lookup_key "credentials" kvs) as [[| | | | | |kvs']|] eqn:Hc;
      try discriminate.
    simpl. rewrite Hc. simpl. rewrite Hfield. simpl. by rewrite Hfalsy.
  - apply (get_access_token_hit repr_str w st1). simpl.
    by destruct v.
Qed.

Lemma X7_falsy_token_is_cached_witness :
  let w := broker_world (credentials_response "0" (PInt 0)) in
  let st1 := State (PInt 0) [credentials_request plain_repr w] [] in
  get_access_token plain_repr w initial_state =
    (Raises (Api AuthenticationError
                 "No access token found in Nango credentials" None PNone),
     st1) ∧
  get_access_token plain_repr w st1 = (Returns (PInt 0), st1).
Proof.
  intros w st1.
  apply (X7_falsy_token_is_cached plain_repr w initial_state
           (credentials_response "0" (PInt 0))
           (credentials_body (PInt 0)) (PInt 0));
    first [reflexivity | discriminate].
Defined.

(** *** Request executor *)

(** [send], by what the target API does with the first request. *)
Lemma send_first repr_str w method url h params json_data data retry_auth st :
  let first := ApiRequest method url h params json_data data 30 in
  let sent := State (_cached_access_token st) (broker_log st)
                    (api_log st ++ [first]) in
  send repr_str w method url h params json_data data retry_auth st =
    match transport_result (target w (length (api_log st)) first) with
    | inl r =>
        if (status_code r =? 401) && retry_auth then
          bind (refresh_access_token repr_str w)
               (λ token,
                  requests_request w
                    (ApiRequest method url
                       (<["Authorization" := bearer repr_str token]> h)
                       params json_data data 30)) sent
        else (Returns r, sent)
    | inr e => (Raises (Lib e), sent)
    end.
Proof.
  cbv zeta. unfold send, requests_request at 1. run.
  destruct (transport_result _) as [r|e]; [|done].
  by destruct ((status_code r =? 401) && retry_auth).
Qed.

(** X8. When the request itself fails, [make_api_request] raises the base
    [GoogleSheetsAPIError] without status code: with the timeout message for
    a timeout, the connection message for a connection error, and
    ["Request failed: "] followed by the error's text for any other
    exception of the HTTP library.  An exception from outside the library
    leaves the function as it is.  In every case one request has been
    issued and nothing else has changed. *)
Theorem X8_transport_failures repr_str w method endpoint headers params
    json_data data retry_auth st h st1 :
  with_authorization repr_str w headers st = (Returns h, st1) →
  let first := ApiRequest method (BASE_URL +:+ endpoint) h params json_data
                          data 30 in
  let sent := State (_cached_access_token st1) (broker_log st1)
                    (api_log st1 ++ [first]) in
  let run := make_api_request repr_str w method endpoint headers params
                              json_data data retry_auth st in
  match target w (length (api_log st1)) first with
  | Responded _ => True
  | TimedOut _ =>
      run = (Raises (Api GoogleSheetsAPIError
               "Request timeout - Google Sheets API did not respond in time"
               None PNone), sent)
  | ConnectionFailed _ =>
      run = (Raises (Api GoogleSheetsAPIError
               "Connection error - Unable to reach Google Sheets API"
               None PNone), sent)
  | RequestFailed s =>
      run = (Raises (Api GoogleSheetsAPIError ("Request failed: " +:+ s)
                         None PNone), sent)
  | Crashed s => run = (Raises (Lib (Foreign s)), sent)
  end.
Proof.
  intros Hauth. cbv zeta.
  rewrite (make_api_request_sent _ _ _ _ _ _ _ _ _ _ _ _ Hauth).
  rewrite send_first. cbv zeta.
  by destruct (target w _ _).
Qed.

Lemma X8_transport_failures_witness :
  make_api_request plain_repr (offline_world full_environ) "GET"
    "/v4/spreadsheets/abc" None PNone PNone PNone true
    (with_token (PStr "tok")) =
  (Raises (Api GoogleSheetsAPIError
             "Connection error - Unable to reach Google Sheets API"
             None PNone),
   State (PStr "tok") []
     [ApiRequest "GET" "https://sheets.googleapis.com/v4/spreadsheets/abc"
        (<["Content-Type" := "application/json"]>
           (<["Authorization" := "Bearer tok"]> ∅))
        PNone PNone PNone 30]).
Proof.
  exact (X8_transport_failures plain_repr (offline_world full_environ) "GET"
           "/v4/spreadsheets/abc" None PNone PNone PNone true
           (with_token (PStr "tok")) _ _ eq_refl).
Defined.

(** X9. Unless the first response has status 401 and [retry_auth] is set,
    the first response is final: [make_api_request] issues that one request,
    classifies or parses its response, and neither calls the broker nor
    changes the token slot after the request.  In particular a 401 with
    [retry_auth] off, and a 403 or a 500 in any case, are not retried. *)
Theorem X9_first_response_final repr_str w method endpoint headers params
    json_data data retry_auth st h st1 r :
  with_authorization repr_str w headers st = (Returns h, st1) →
  let first := ApiRequest method (BASE_URL +:+ endpoint) h params json_data
                          data 30 in
  target w (length (api_log st1)) first = Responded r →
  (status_code r =? 401) && retry_auth = false →
  make_api_request repr_str w method endpoint headers params json_data data
                   retry_auth st =
    (match _raise_for_status repr_str r with
     | Returns _ => Returns (response_data r)
     | Raises e => Raises e
     end,
     State (_cached_access_token st1) (broker_log st1)
           (api_log st1 ++ [first])).
Proof.
  intros Hauth first Htarget Hfinal.
  rewrite (make_api_request_sent _ _ _ _ _ _ _ _ _ _ _ _ Hauth).
  rewrite send_first. cbv zeta. fold first. rewrite Htarget. simpl.
  by rewrite Hfinal.
Qed.

Lemma X9_first_response_final_witness :
  make_api_request plain_repr
    (api_world (PStr "fresh") (λ _, Responded (empty_response 401)))
    "GET" "/v4/spreadsheets/abc" None PNone PNone PNone false
    (with_token (PStr "stale")) =
  (Raises (Api AuthenticationError "Authentication failed: HTTP 401 error"
               (Some 401) PNone),
   State (PStr "stale") []
     [ApiRequest "GET" "https://sheets.googleapis.com/v4/spreadsheets/abc"
        (<["Content-Type" := "application/json"]>
           (<["Authorization" := "Bearer stale"]> ∅))
        PNone PNone PNone 30]).
Proof.
  exact (X9_first_response_final plain_repr
           (api_world (PStr "fresh") (λ _, Responded (empty_response 401)))
           "GET" "/v4/spreadsheets/abc" None PNone PNone PNone false
           (with_token (PStr "stale")) _ _ _ eq_refl eq_refl eq_refl).
Defined.

(** What the provider raises. *)
Lemma get_connection_credentials_raises repr_str w st e st' :
  get_connection_credentials repr_str w st = (Raises e, st') →
  ∃ msg, e = Api AuthenticationError msg None PNone.
Proof.
  unfold get_connection_credentials, requests_get, raise_for_status,
    response_json, credentials_failure. run.
  destruct (missing_vars w); [|intros [= <- _]; eauto].
  destruct (broker w _ _); simpl; repeat case_match;
    intros; simplify_eq; eauto.
Qed.

(** What the token cache raises: the provider's error, its own, or the
    [AttributeError] of a malformed body. *)
Lemma get_access_token_raises repr_str w st e st' :
  get_access_token repr_str w st = (Raises e, st') →
  (∃ msg, e = Api AuthenticationError msg None PNone) ∨ e = AttributeError.
Proof.
  unfold get_access_token. run.
  destruct (is_None (_cached_access_token st)); [|discriminate].
  destruct (get_connection_credentials repr_str w st) as [[body|e0] st0] eqn:Hf.
  - unfold py_get. repeat case_match; intros; simplify_eq; eauto.
  - intros [= <- _]. left. by eapply get_connection_credentials_raises.
Qed.

(** The token cache calls the broker at most once. *)
Lemma get_access_token_broker_log repr_str w st o st' :
  get_access_token repr_str w st = (o, st') →
  ∃ b, broker_log st' = (broker_log st ++ b)%list ∧ (length b ≤ 1)%nat.
Proof.
  unfold get_access_token, get_connection_credentials, requests_get. run.
  destruct (is_None (_cached_access_token st)).
  - unfold py_get.
    repeat case_match; intros; simplify_eq; simpl;
      first [ by (exists []; rewrite app_nil_r; split; [done|simpl; lia])
            | by (eexists [_]; split; [done|simpl; lia]) ].
  - intros [= <- <-]. exists []. rewrite app_nil_r. split; [done|simpl; lia].
Qed.

(** The headers that [with_authorization] prepares when it attaches a
    token. *)
Lemma with_authorization_headers repr_str w headers st h st1 :
  lacks_authorization headers = true →
  with_authorization repr_str w headers st = (Returns h, st1) →
  ∃ token,
    get_access_token repr_str w st = (Returns token, st1) ∧
    token ≠ PNone ∧
    h = <["Content-Type" := "application/json"]>
          (<["Authorization" := bearer repr_str token]> (default ∅ headers)).
Proof.
  intros Hlacks. unfold with_authorization. rewrite Hlacks. run.
  destruct (get_access_token repr_str w st) as [[token|e] st0] eqn:Hg;
    [|discriminate].
  intros [= <- <-]. exists token. split; [done|]. split.
  - destruct (is_None (_cached_access_token st)) eqn:Hn.
    + assert (_cached_access_token st = PNone) as Hmiss
          by (by destruct (_cached_access_token st)).
      pose proof (get_access_token_miss_truthy _ _ _ _ _ Hmiss Hg).
      by intros ->.
    + rewrite (get_access_token_hit _ _ _ Hn) in Hg. injection Hg as <- _.
      intros H. rewrite H in Hn. discriminate.
  - destruct headers as [h0|]; [|done]. simpl.
    case_bool_decide; by subst.
Qed.

(** The requests of one call of [make_api_request]: none when no token
    could be attached; else the request with the prepared headers, and
    after a refresh its repetition with the fresh token. *)
Lemma make_api_request_requests repr_str w method endpoint headers params
    json_data data retry_auth st :
  let request h :=
    ApiRequest method (BASE_URL +:+ endpoint) h params json_data data 30 in
  let st' := (make_api_request repr_str w method endpoint headers params
                               json_data data retry_auth st).2 in
  api_log st' = api_log st ∨
  ∃ h st1,
    with_authorization repr_str w headers st = (Returns h, st1) ∧
    (api_log st' = (api_log st ++ [request h])%list ∨
     ∃ token,
       truthy token = true ∧
       _cached_access_token st' = token ∧
       api_log st' =
         (api_log st ++
          [request h;
           request (<["Authorization" := bearer repr_str token]> h)])%list).
Proof.
  cbv zeta.
  destruct (with_authorization repr_str w headers st) as [[h|e] st1] eqn:Hauth.
  - right. exists h, st1. split; [done|].
    pose proof (with_authorization_api_log _ _ _ _ _ _ Hauth) as Hlog1.
    rewrite (make_api_request_sent _ _ _ _ _ _ _ _ _ _ _ _ Hauth).
    rewrite send_first. cbv zeta.
    destruct (transport_result _) as [r|e]; [|left; simpl; by rewrite Hlog1].
    destruct ((status_code r =? 401) && retry_auth);
      [|left; destruct (_raise_for_status repr_str r); simpl; by rewrite Hlog1].
    unfold bind, refresh_access_token. run. simpl.
    set (emptied := State PNone _ _).
    destruct (get_access_token repr_str w emptied) as [[token|e] st2] eqn:Hg;
      destruct (get_access_token_effects _ _ _ _ _ Hg) as (Hlog2 & _ & Htok);
      simpl in Hlog2.
    + right. exists token. split.
      { by eapply (get_access_token_miss_truthy _ _ emptied). }
      destruct (Htok token eq_refl) as [Hslot _].
      unfold requests_request.
      destruct (transport_result _) as [r2|e2]; simpl;
        [destruct (_raise_for_status repr_str r2); simpl|];
        (split; [done|by rewrite Hlog2, Hlog1, <- app_assoc]).
    + left. simpl. by rewrite Hlog2, Hlog1.
  - left. unfold make_api_request. cbv zeta.
    rewrite (bind_raises _ _ _ _ _ Hauth). simpl.
    by eapply with_authorization_api_log.
Qed.

Lemma with_authorization_broker_log repr_str w headers st o st1 :
  with_authorization repr_str w headers st = (o, st1) →
  ∃ b, broker_log st1 = (broker_log st ++ b)%list ∧ (length b ≤ 1)%nat.
Proof.
  unfold with_authorization. destruct (lacks_authorization headers); run.
  - destruct (get_access_token repr_str w st) as [[token|e] st0] eqn:Hg;
      intros [= <- <-]; by eapply get_access_token_broker_log.
  - intros [= <- <-]. exists []. rewrite app_nil_r. split; [done|simpl; lia].
Qed.

Lemma with_authorization_raises repr_str w headers st e st1 :
  with_authorization repr_str w headers st = (Raises e, st1) →
  (∃ msg, e = Api AuthenticationError msg None PNone) ∨ e = AttributeError.
Proof.
  unfold with_authorization. destruct (lacks_authorization headers); run;
    [|discriminate].
  destruct (get_access_token repr_str w st) as [[token|e0] st0] eqn:Hg;
    [discriminate|].
  intros [= <- <-]. by eapply get_access_token_raises.
Qed.

(** What the handlers of [make_api_request] make of a failed request. *)
Lemma api_failure_lib e :
  is_api_error (api_failure (Lib e)) = true ∨
  ∃ s, api_failure (Lib e) = Lib (Foreign s).
Proof. destruct e; simpl; eauto. Qed.

(** X10. One call of [make_api_request] issues at most two requests to the
    target API and at most two calls to the broker, whatever the world
    does, and only appends to the two logs. *)
Theorem X10_call_bounds repr_str w method endpoint headers params json_data
    data retry_auth st :
  let st' := (make_api_request repr_str w method endpoint headers params
                               json_data data retry_auth st).2 in
  (∃ a, api_log st' = (api_log st ++ a)%list ∧ (length a ≤ 2)%nat) ∧
  (∃ b, broker_log st' = (broker_log st ++ b)%list ∧ (length b ≤ 2)%nat).
Proof.
  cbv zeta. split.
  - destruct (make_api_request_requests repr_str w method endpoint headers
                params json_data data retry_auth st)
      as [H|(h & st1 & _ & [H|(token & _ & _ & H)])]; cbv zeta in H;
      rewrite H.
    + exists []. rewrite app_nil_r. split; [done|simpl; lia].
    + eexists [_]. split; [done|simpl; lia].
    + eexists [_; _]. split; [done|simpl; lia].
  - destruct (with_authorization repr_str w headers st) as [[h|e] st1] eqn:Hauth;
      destruct (with_authorization_broker_log _ _ _ _ _ _ Hauth)
        as (b1 & Hb1 & Hn1).
    + rewrite (make_api_request_sent _ _ _ _ _ _ _ _ _ _ _ _ Hauth).
      rewrite send_first. cbv zeta.
      destruct (transport_result _) as [r|e];
        [|exists b1; simpl; split; [done|lia]].
      destruct ((status_code r =? 401) && retry_auth);
        [|exists b1; destruct (_raise_for_status repr_str r); simpl;
          split; first [done|lia]].
      unfold bind, refresh_access_token. run. simpl.
      set (emptied := State PNone _ _).
      destruct (get_access_token repr_str w emptied) as [[token|e] st2] eqn:Hg;
        destruct (get_access_token_broker_log _ _ _ _ _ Hg) as (b2 & Hb2 & Hn2);
        simpl in Hb2; exists (b1 ++ b2)%list.
      * unfold requests_request.
        destruct (transport_result _) as [r2|e2]; simpl;
          [destruct (_raise_for_status repr_str r2); simpl|];
          (split; [by rewrite Hb2, Hb1, app_assoc|rewrite length_app; lia]).
      * simpl. split; [by rewrite Hb2, Hb1, app_assoc|rewrite length_app; lia].
    + unfold make_api_request. cbv zeta.
      rewrite (bind_raises _ _ _ _ _ Hauth). simpl.
      exists b1. split; [done|lia].
Qed.

(** X11. Headers of the caller that already hold [Authorization] are sent
    as they are: no token is read or fetched for them and no content type
    is added.  When the first response is final, the call has issued that
    one request and left the token slot and the broker alone, even with an
    empty slot and no configuration. *)
Theorem X11_caller_authorization repr_str w method endpoint h a params
    json_data data retry_auth st r :
  h !! "Authorization" = Some a →
  let first := ApiRequest method (BASE_URL +:+ endpoint) h params json_data
                          data 30 in
  target w (length (api_log st)) first = Responded r →
  (status_code r =? 401) && retry_auth = false →
  make_api_request repr_str w method endpoint (Some h) params json_data data
                   retry_auth st =
    (match _raise_for_status repr_str r with
     | Returns _ => Returns (response_data r)
     | Raises e => Raises e
     end,
     State (_cached_access_token st) (broker_log st) (api_log st ++ [first])).
Proof.
  intros Ha first Htarget Hfinal.
  assert (with_authorization repr_str w (Some h) st = (Returns h, st)) as Hauth.
  { unfold with_authorization, lacks_authorization.
    assert (h ≠ ∅) as Hne by (intros ->; by rewrite lookup_empty in Ha).
    rewrite (bool_decide_eq_false_2 _ Hne), Ha. done. }
  rewrite (make_api_request_sent _ _ _ _ _ _ _ _ _ _ _ _ Hauth).
  rewrite send_first. cbv zeta. fold first. rewrite Htarget. simpl.
  by rewrite Hfinal.
Qed.

Lemma X11_caller_authorization_witness :
  make_api_request plain_repr
    (World ∅ (λ n _, no_network n)
           (λ _ _, Responded (json_response 200 "{}" (PDict []))))
    "GET" "/v4/spreadsheets/abc" (Some {[ "Authorization" := "Bearer mine" ]})
    PNone PNone PNone true initial_state =
  (Returns (PDict []),
   State PNone []
     [ApiRequest "GET" "https://sheets.googleapis.com/v4/spreadsheets/abc"
        {[ "Authorization" := "Bearer mine" ]} PNone PNone PNone 30]).
Proof.
  exact (X11_caller_authorization plain_repr
           (World ∅ (λ n _, no_network n)
                  (λ _ _, Responded (json_response 200 "{}" (PDict []))))
           "GET" "/v4/spreadsheets/abc" {[ "Authorization" := "Bearer mine" ]}
           "Bearer mine" PNone PNone PNone true initial_state _
           eq_refl eq_refl eq_refl).
Defined.

(** X12. When the caller's headers hold no [Authorization], every request
    that a call of [make_api_request] issues carries the arguments of the
    call, a timeout of 30 seconds, the content type [application/json], the
    caller's other headers unchanged, and a bearer token: for the first
    request the value that [get_access_token] returned, which is not
    [None]; for the repeated request the value that the slot holds at the
    end of the call, which is not [None] either. *)
Theorem X12_requests_carry_token repr_str w method endpoint headers params
    json_data data retry_auth st :
  lacks_authorization headers = true →
  let st' := (make_api_request repr_str w method endpoint headers params
                               json_data data retry_auth st).2 in
  let carries :=
    authorized_request repr_str method (BASE_URL +:+ endpoint)
                       (default ∅ headers) params json_data data in
  api_log st' = api_log st ∨
  ∃ issued st0 first,
    get_access_token repr_str w st = (Returns issued, st0) ∧
    issued ≠ PNone ∧
    carries issued first ∧
    (api_log st' = (api_log st ++ [first])%list ∨
     ∃ second,
       _cached_access_token st' ≠ PNone ∧
       carries (_cached_access_token st') second ∧
       api_log st' = (api_log st ++ [first; second])%list).
Proof.
  intros Hlacks. cbv zeta.
  destruct (make_api_request_requests repr_str w method endpoint headers
              params json_data data retry_auth st)
    as [H|(h & st1 & Hauth & Hnew)]; cbv zeta in *; [by left|right].
  destruct (with_authorization_headers _ _ _ _ _ _ Hlacks Hauth)
    as (token & Hissued & Htoken & ->).
  exists token, st1,
    (ApiRequest method (BASE_URL +:+ endpoint)
       (<["Content-Type" := "application/json"]>
          (<["Authorization" := bearer repr_str token]> (default ∅ headers)))
       params json_data data 30).
  split; [done|]. split; [done|]. split.
  { unfold authorized_request. simpl. repeat split; try done.
    - by rewrite lookup_insert_eq.
    - by rewrite lookup_insert_ne, lookup_insert_eq.
    - intros k Hk1 Hk2. by rewrite !lookup_insert_ne. }
  destruct Hnew as [H|(fresh & Hfresh & Hslot & H)]; [by left|right].
  exists (ApiRequest method (BASE_URL +:+ endpoint)
            (<["Authorization" := bearer repr_str fresh]>
               (<["Content-Type" := "application/json"]>
                  (<["Authorization" := bearer repr_str token]>
                     (default ∅ headers))))
            params json_data data 30).
  rewrite Hslot. split; [by intros ->|]. split; [|exact H].
  unfold authorized_request. simpl. repeat split; try done.
  - by rewrite lookup_insert_ne, lookup_insert_eq.
  - by rewrite lookup_insert_eq.
  - intros k Hk1 Hk2. by rewrite !lookup_insert_ne.
Qed.

Lemma X12_requests_carry_token_witness :
  let w := api_world (PStr "fresh") (λ _, Responded (empty_response 401)) in
  let st' := (make_api_request plain_repr w "GET" "/v4/spreadsheets/abc" None
                PNone PNone PNone true (with_token (PStr "stale"))).2 in
  let carries :=
    authorized_request plain_repr "GET"
      "https://sheets.googleapis.com/v4/spreadsheets/abc" ∅ PNone PNone PNone in
  api_log st' = [] ∨
  ∃ issued st0 first,
    get_access_token plain_repr w (with_token (PStr "stale"))
      = (Returns issued, st0) ∧
    issued ≠ PNone ∧
    carries issued first ∧
    (api_log st' = ([] ++ [first])%list ∨
     ∃ second,
       _cached_access_token st' ≠ PNone ∧
       carries (_cached_access_token st') second ∧
       api_log st' = ([] ++ [first; second])%list).
Proof.
  exact (X12_requests_carry_token plain_repr
           (api_world (PStr "fresh") (λ _, Responded (empty_response 401)))
           "GET" "/v4/spreadsheets/abc" None PNone PNone PNone true
           (with_token (PStr "stale")) eq_refl).
Defined.

(** X13. Whatever the world does, an exception that leaves
    [make_api_request] is an error of the taxonomy, or the [AttributeError]
    of a malformed broker body, or an exception that the request raised
    from outside the HTTP library: timeouts, connection errors and the
    library's other exceptions never leave it as they are. *)
Theorem X13_executor_errors repr_str w method endpoint headers params
    json_data data retry_auth st :
  match (make_api_request repr_str w method endpoint headers params json_data
                          data retry_auth st).1 with
  | Returns _ => True
  | Raises e =>
      is_api_error e = true ∨ e = AttributeError ∨ ∃ s, e = Lib (Foreign s)
  end.
Proof.
  assert (∀ e, (∃ msg, e = Api AuthenticationError msg None PNone)
               ∨ e = AttributeError →
               is_api_error (api_failure e) = true
               ∨ api_failure e = AttributeError
               ∨ ∃ s, api_failure e = Lib (Foreign s)) as Hcache.
  { intros e [[msg ->]| ->]; simpl; auto. }
  assert (∀ r, match _raise_for_status repr_str r with
               | Returns _ => Returns (response_data r)
               | Raises e => Raises e
               end = Returns (response_data r) ∨
               ∃ e, match _raise_for_status repr_str r with
                    | Returns _ => Returns (response_data r)
                    | Raises e => Raises e
                    end = Raises e ∧ is_api_error e = true) as Hstatus.
  { intros r. destruct (_raise_for_status repr_str r) as [[]|e] eqn:Hr;
      [by left|right].
    exists e. split; [done|]. by destruct (_raise_for_status_api _ _ _ Hr). }
  destruct (with_authorization repr_str w headers st) as [[h|e] st1] eqn:Hauth.
  - rewrite (make_api_request_sent _ _ _ _ _ _ _ _ _ _ _ _ Hauth).
    rewrite send_first. cbv zeta.
    destruct (transport_result _) as [r|e].
    + destruct ((status_code r =? 401) && retry_auth).
      * unfold bind, refresh_access_token. run. simpl.
        set (emptied := State PNone _ _).
        destruct (get_access_token repr_str w emptied) as [[token|e] st2] eqn:Hg.
        -- unfold requests_request.
           destruct (transport_result _) as [r2|e2]; simpl.
           ++ destruct (Hstatus r2) as [->|(e & -> & He)]; simpl; auto.
           ++ destruct (api_failure_lib e2) as [H|H]; auto.
        -- simpl. apply Hcache. by eapply get_access_token_raises.
      * destruct (Hstatus r) as [->|(e & -> & He)]; simpl; auto.
    + simpl. destruct (api_failure_lib e) as [H|H]; auto.
  - unfold make_api_request. cbv zeta.
    rewrite (bind_raises _ _ _ _ _ Hauth). simpl.
    destruct (with_authorization_raises _ _ _ _ _ _ Hauth) as [[msg ->]| ->];
      simpl; auto.
Qed.

(** *** Operation wrappers *)

(** Splits on the arguments that a wrapper checks, in the goal and in the
    hypothesis [H] about [first_violation]. *)
Ltac case_checks_in H :=
  repeat match goal with
         | |- context [negb (truthy ?x)] =>
             let E := fresh "E" in
             destruct (truthy x) eqn:E; simpl;
             try (rewrite E in H; simpl in H)
         end.

Ltac unfold_wrappers :=
  unfold spreadsheets_create, spreadsheets_get, spreadsheets_batch_update,
    spreadsheets_get_by_data_filter, values_get, values_update,
    values_append, values_clear, values_batch_get, values_batch_update,
    values_batch_clear, values_batch_get_by_data_filter,
    values_batch_update_by_data_filter, values_batch_clear_by_data_filter,
    developer_metadata_get, developer_metadata_search.

Lemma not_in_raw_user_entered_spec v :
  not_in_raw_user_entered v =
  match v with
  | PStr s => negb (String.eqb s "RAW" || String.eqb s "USER_ENTERED")
  | _ => true
  end.
Proof. reflexivity. Qed.

(** X14. The checks of a wrapper run in the order of its signature: the
    call raises [ValidationError] with ["<name> is required"] for the first
    required argument that is missing, and the message about
    [value_input_option] only when every required argument is there.  The
    state is left as it was. *)
Theorem X14_validation_message repr_str w validates c st msg :
  first_violation c = Some msg →
  invoke repr_str w validates c st =
    (Raises (Api ValidationError msg None PNone), st).
Proof.
  intros H. unfold first_violation in H.
  destruct c; simpl in H |- *; unfold_wrappers; case_checks_in H;
    try (injection H as <-; reflexivity);
    try discriminate;
    match goal with
    | |- context [not_in_raw_user_entered ?v] =>
        rewrite (not_in_raw_user_entered_spec v);
        destruct v as [| | | |s| |]; simpl in H |- *;
        try (injection H as <-; reflexivity);
        destruct (String.eqb s "RAW" || String.eqb s "USER_ENTERED");
        simpl; first [discriminate | injection H as <-; reflexivity]
    end.
Qed.

Lemma X14_validation_message_witness :
  invoke plain_repr (offline_world ∅) accept_all
    (ValuesUpdate (PStr "abc") (PStr "") (PList []) (PStr "FORMULA")
       PNone PNone PNone PNone) initial_state =
  (Raises (Api ValidationError "range is required" None PNone), initial_state).
Proof.
  apply (X14_validation_message plain_repr (offline_world ∅) accept_all).
  reflexivity.
Defined.

(** Without a token in the slot and with an incomplete configuration,
    [make_api_request] stops before any network call. *)
Lemma make_api_request_unconfigured repr_str w method endpoint params
    json_data data retry_auth st :
  _cached_access_token st = PNone →
  missing_vars w ≠ [] →
  make_api_request repr_str w method endpoint None params json_data data
                   retry_auth st =
    (Raises (Api AuthenticationError
                 ("Missing required environment variables: "
                  +:+ String.concat ", " (missing_vars w)) None PNone), st).
Proof.
  intros Hmiss Hcfg.
  unfold make_api_request, with_authorization, get_access_token,
    get_connection_credentials. run. simpl. rewrite Hmiss. simpl.
  by destruct (missing_vars w).
Qed.

(** X15. An invocation that passes its local checks goes on to the token
    cache and the credential provider: with an empty slot and an incomplete
    configuration, every operation raises the [AuthenticationError] that
    lists the missing settings, and makes no network call. *)
Theorem X15_valid_call_needs_configuration repr_str w validates c st :
  first_violation c = None →
  _cached_access_token st = PNone →
  missing_vars w ≠ [] →
  invoke repr_str w validates c st =
    (Raises (Api AuthenticationError
                 ("Missing required environment variables: "
                  +:+ String.concat ", " (missing_vars w)) None PNone), st).
Proof.
  intros H Hmiss Hcfg. unfold first_violation in H.
  destruct c; simpl in H |- *; unfold_wrappers; case_checks_in H;
    try discriminate;
    try match goal with
        | |- context [not_in_raw_user_entered ?v] =>
            rewrite (not_in_raw_user_entered_spec v);
            destruct v as [| | | |s| |]; simpl in H |- *; try discriminate;
            destruct (String.eqb s "RAW" || String.eqb s "USER_ENTERED");
            simpl; try discriminate
        end;
    by erewrite bind_raises
      by (by apply make_api_request_unconfigured).
Qed.

Lemma X15_valid_call_needs_configuration_witness :
  invoke plain_repr (offline_world partial_environ) accept_all
    (ValuesGet (PStr "abc") (PStr "A1:B2") PNone PNone PNone) initial_state =
  (Raises (Api AuthenticationError
     "Missing required environment variables: NANGO_INTEGRATION_ID, NANGO_SECRET_KEY"
     None PNone), initial_state).
Proof.
  apply (X15_valid_call_needs_configuration plain_repr
           (offline_world partial_environ) accept_all);
    first [reflexivity | discriminate].
Defined.

(** With a token in the slot and a target API that answers with an
    accepted response, [make_api_request] issues one request, carrying that
    token, and returns the parsed body. *)
Lemma make_api_request_answered repr_str w method endpoint params json_data
    data retry_auth st r :
  is_None (_cached_access_token st) = false →
  (∀ n req, target w n req = Responded r) →
  ok r = true →
  make_api_request repr_str w method endpoint None params json_data data
                   retry_auth st =
    (Returns (response_data r),
     State (_cached_access_token st) (broker_log st)
       (api_log st ++
        [ApiRequest method (BASE_URL +:+ endpoint)
           (<["Content-Type" := "application/json"]>
              (<["Authorization" := bearer repr_str (_cached_access_token st)]>
                 ∅))
           params json_data data 30])).
Proof.
  intros Hslot Htarget Hok.
  assert (with_authorization repr_str w None st =
          (Returns (<["Content-Type" := "application/json"]>
                      (<["Authorization" :=
                           bearer repr_str (_cached_access_token st)]> ∅)),
           st)) as Hauth.
  { unfold with_authorization. simpl.
    by rewrite (bind_returns _ _ _ _ _ (get_access_token_hit _ _ _ Hslot)). }
  rewrite (make_api_request_sent _ _ _ _ _ _ _ _ _ _ _ _ Hauth).
  rewrite send_first. cbv zeta. rewrite Htarget. simpl.
  assert ((status_code r =? 401) = false) as ->.
  { unfold ok in Hok. apply negb_true_iff in Hok.
    destruct (Z.eqb_spec (status_code r) 401) as [E|]; [|done].
    rewrite E in Hok. discriminate. }
  simpl. by rewrite (_raise_for_status_ok _ _ Hok).
Qed.

(** X16. With a token in the slot and valid arguments, when the target API
    answers with an accepted response, every operation issues exactly one
    request.  The six operations that build no model return what
    [make_api_request] returned, [None] included.  The ten that build a model
    return it when the body is a JSON object that the model accepts; they
    raise the validation error of the model when it does not, and
    [TypeError] when the body is absent or is not a JSON object. *)
Theorem X16_answered_call repr_str w validates c st r :
  first_violation c = None →
  is_None (_cached_access_token st) = false →
  (∀ n req, target w n req = Responded r) →
  ok r = true →
  ∃ req,
    invoke repr_str w validates c st =
      (match built_model c with
       | None => Returns (Plain (response_data r))
       | Some m =>
           match response_data r with
           | PDict kvs =>
               if validates m kvs then Returns (Structured m kvs)
               else Raises PydanticValidationError
           | _ => Raises TypeError
           end
       end,
       State (_cached_access_token st) (broker_log st) (api_log st ++ [req])).
Proof.
  intros H Hslot Htarget Hok. unfold first_violation in H.
  destruct c; simpl in H |- *; unfold_wrappers; case_checks_in H;
    try discriminate;
    try match goal with
        | |- context [not_in_raw_user_entered ?v] =>
            rewrite (not_in_raw_user_entered_spec v);
            destruct v as [| | | |s| |]; simpl in H |- *; try discriminate;
            destruct (String.eqb s "RAW" || String.eqb s "USER_ENTERED");
            simpl; try discriminate
        end;
    eexists;
    (erewrite bind_returns
       by (by apply (make_api_request_answered _ _ _ _ _ _ _ _ _ r)));
    unfold construct; run;
    destruct (response_data r) as [| | | | | |kvs]; try reflexivity;
    match goal with
    | |- context [validates ?m kvs] => by destruct (validates m kvs)
    end.
Qed.

Lemma X16_answered_call_witness :
  ∃ req,
    invoke plain_repr
      (api_world (PStr "tok") (λ _, Responded (empty_response 204)))
      accept_all
      (DeveloperMetadataGet (PStr "abc") (PInt 7))
      (with_token (PStr "tok")) =
    (Raises TypeError, State (PStr "tok") [] ([] ++ [req])).
Proof.
  exact (X16_answered_call plain_repr
           (api_world (PStr "tok") (λ _, Responded (empty_response 204)))
           accept_all (DeveloperMetadataGet (PStr "abc") (PInt 7))
           (with_token (PStr "tok")) (empty_response 204)
           eq_refl eq_refl (λ _ _, eq_refl) eq_refl).
Defined.

(** *** Utility tools *)

(** A required setting counts as present exactly when it is not among the
    missing ones. *)
Lemma truthy_environ_missing w var :
  var ∈ required_vars →
  truthy (os_environ_get w var) = bool_decide (var ∉ missing_vars w).
Proof.
  intros Hvar. unfold missing_vars.
  destruct (truthy (os_environ_get w var)) eqn:Ht; symmetry.
  - apply bool_decide_eq_true_2. rewrite list_elem_of_In, filter_In.
    intros [_ H]. by rewrite Ht in H.
  - apply bool_decide_eq_false_2. intros H. apply H.
    rewrite list_elem_of_In, filter_In. rewrite <- list_elem_of_In.
    by rewrite Ht.
Qed.

(** What [has_token] reports is whether the slot holds a usable token
    afterwards. *)
Lemma has_token_slot repr_str w st :
  let run := has_token repr_str w st in
  run.1 = truthy (_cached_access_token run.2) ∧
  api_log run.2 = api_log st ∧
  (truthy (_cached_access_token st) = true → run.2 = st) ∧
  (∃ b, broker_log run.2 = (broker_log st ++ b)%list ∧ (length b ≤ 1)%nat).
Proof.
  cbv zeta. unfold has_token. run. simpl.
  destruct (truthy (_cached_access_token st)) eqn:Ht.
  - simpl. repeat split; try done.
    exists []. rewrite app_nil_r. split; [done|simpl; lia].
  - destruct (get_access_token repr_str w st) as [[token|e] st'] eqn:Hg;
      destruct (get_access_token_effects _ _ _ _ _ Hg) as (Hlog & _ & Htok);
      pose proof (get_access_token_broker_log _ _ _ _ _ Hg) as Hb; simpl.
    + destruct (Htok token eq_refl) as [-> _]. repeat split; done.
    + repeat split; try done.
      destruct (is_None (_cached_access_token st)) eqn:Hn.
      * assert (_cached_access_token st = PNone) as Hmiss
            by (by destruct (_cached_access_token st)).
        destruct (get_access_token_failure_slot _ _ _ _ _ Hmiss Hg)
          as [->|[-> _]]; done.
      * rewrite (get_access_token_hit _ _ _ Hn) in Hg. discriminate.
Qed.

(** X17. [get_server_info] never raises.  It reports [auth_configured] as
    true exactly when the token slot holds a usable token after the call,
    and each of the four settings as present exactly when it is not among
    the missing ones.  It issues no API request and at most one call to the
    broker, and none at all when the slot already holds a usable token. *)
Theorem X17_get_server_info repr_str w st :
  let run := get_server_info repr_str w st in
  (∃ info env,
     run.1 = Returns (PDict info) ∧
     lookup_key "auth_configured" info =
       Some (PBool (truthy (_cached_access_token run.2))) ∧
     lookup_key "environment_variables" info = Some (PDict env) ∧
     ∀ key var,
       (key, var) ∈ [("nango_connection_id", "NANGO_CONNECTION_ID");
                     ("nango_integration_id", "NANGO_INTEGRATION_ID");
                     ("nango_base_url", "NANGO_BASE_URL");
                     ("nango_secret_key", "NANGO_SECRET_KEY")] →
       lookup_key key env = Some (PBool (bool_decide (var ∉ missing_vars w)))) ∧
  api_log run.2 = api_log st ∧
  (truthy (_cached_access_token st) = true → run.2 = st) ∧
  (∃ b, broker_log run.2 = (broker_log st ++ b)%list ∧ (length b ≤ 1)%nat).
Proof.
  cbv zeta. unfold get_server_info.
  destruct (has_token_slot repr_str w st) as (Hflag & Hlog & Hkeep & Hbroker).
  cbv zeta in *.
  destruct (has_token repr_str w st) as [flag st'] eqn:Hrun. simpl in *.
  split; [|by repeat split].
  eexists _, _. split; [reflexivity|]. simpl.
  split; [by rewrite Hflag|]. split; [reflexivity|].
  intros key var Hin.
  repeat (apply elem_of_cons in Hin as [[= -> ->]|Hin];
          [simpl; rewrite truthy_environ_missing;
             [reflexivity|apply list_elem_of_In; simpl; tauto]|]).
  by apply elem_of_nil in Hin.
Qed.

(** *** Composition *)

(** X18. A token that [get_access_token] has returned is returned again by
    every later call, which changes nothing and does not call the broker:
    the successful call is idempotent. *)
Theorem X18_token_is_kept repr_str w st token st' :
  get_access_token repr_str w st = (Returns token, st') →
  ∀ n, repeatedly n (get_access_token repr_str w) st' =
       (Returns (replicate n token), st').
Proof.
  intros Hrun.
  destruct (get_access_token_effects _ _ _ _ _ Hrun) as (_ & _ & Htok).
  destruct (Htok token eq_refl) as [Hslot _].
  assert (is_None (_cached_access_token st') = false) as Hfilled.
  { rewrite Hslot. destruct (is_None (_cached_access_token st)) eqn:Hn.
    - assert (_cached_access_token st = PNone) as Hmiss
          by (by destruct (_cached_access_token st)).
      pose proof (get_access_token_miss_truthy _ _ _ _ _ Hmiss Hrun).
      by destruct token.
    - rewrite (get_access_token_hit _ _ _ Hn) in Hrun.
      injection Hrun as <- _. done. }
  pose proof (get_access_token_hit repr_str w st' Hfilled) as Hhit.
  rewrite Hslot in Hhit.
  intros n. induction n as [|n IH]; [reflexivity|].
  simpl. rewrite (bind_returns _ _ _ _ _ Hhit).
  by rewrite (bind_returns _ _ _ _ _ IH).
Qed.

Lemma X18_token_is_kept_witness :
  let w := broker_world (credentials_response (quoted "fresh") (PStr "fresh")) in
  repeatedly 2 (get_access_token plain_repr w)
    (State (PStr "fresh") [credentials_request plain_repr w] []) =
  (Returns [PStr "fresh"; PStr "fresh"],
   State (PStr "fresh") [credentials_request plain_repr w] []).
Proof.
  intros w.
  exact (X18_token_is_kept plain_repr w initial_state (PStr "fresh") _
           eq_refl 2%nat).
Defined.

(** X19. After a first 401 and a successful refresh, the outcome of
    [make_api_request] is that of the second request alone: its response is
    classified or parsed like a first one, and a failure of the request is
    turned into the same [GoogleSheetsAPIError].  The slot keeps the fresh
    token either way. *)
Theorem X19_retry_outcome repr_str w method endpoint headers params json_data
    data st h st1 r1 token st2 :
  with_authorization repr_str w headers st = (Returns h, st1) →
  let url := BASE_URL +:+ endpoint in
  let first := ApiRequest method url h params json_data data 30 in
  target w (length (api_log st1)) first = Responded r1 →
  status_code r1 = 401 →
  get_access_token repr_str w
    (State PNone (broker_log st1) (api_log st1 ++ [first]))
    = (Returns token, st2) →
  let second :=
    ApiRequest method url (<["Authorization" := bearer repr_str token]> h)
               params json_data data 30 in
  make_api_request repr_str w method endpoint headers params json_data data
                   true st =
    (match transport_result (target w (S (length (api_log st1))) second) with
     | inl r2 =>
         match _raise_for_status repr_str r2 with
         | Returns _ => Returns (response_data r2)
         | Raises e => Raises e
         end
     | inr e => Raises (api_failure (Lib e))
     end,
     State token (broker_log st2) (api_log st1 ++ [first; second])).
Proof.
  intros Hauth url first Htarget H401 Hfetch second.
  destruct (get_access_token_effects _ _ _ _ _ Hfetch) as (Hlog2 & _ & Htok).
  destruct (Htok token eq_refl) as [Hslot _]. simpl in Hlog2.
  rewrite (make_api_request_sent _ _ _ _ _ _ _ _ _ _ _ _ Hauth).
  rewrite send_first. cbv zeta. fold url first. rewrite Htarget. simpl.
  rewrite H401. simpl. unfold bind, refresh_access_token. run. simpl.
  rewrite Hfetch. unfold requests_request. fold second.
  rewrite Hlog2, length_app. simpl.
  replace (length (api_log st1) + 1)%nat with (S (length (api_log st1)))
    by lia.
  rewrite Hslot, <- app_assoc. simpl.
  destruct (transport_result _) as [r2|e2]; [|done].
  by destruct (_raise_for_status repr_str r2).
Qed.

Lemma X19_retry_outcome_witness :
  let w := api_world (PStr "fresh")
             (λ n, match n with
                   | O => Responded (empty_response 401)
                   | _ => Responded (json_response 200 "{}" (PDict []))
                   end) in
  (make_api_request plain_repr w "GET" "/v4/spreadsheets/abc" None
     PNone PNone PNone true (with_token (PStr "stale"))).1 =
  Returns (PDict []).
Proof.
  intros w.
  pose proof (X19_retry_outcome plain_repr w "GET" "/v4/spreadsheets/abc" None
                PNone PNone PNone (with_token (PStr "stale")) _ _ _
                (PStr "fresh") _ eq_refl eq_refl eq_refl eq_refl) as H.
  cbv zeta in H. rewrite H. reflexivity.
Defined.

(** X20. An error that [_raise_for_status] raises carries the status code
    of the response, and as payload the decoded body when the body is
    JSON, of whatever shape, and [None] when it is not; a status from 500
    to 599 is reported as ["Server error: ..."], and a status from 400 to
    499 without a class of its own as ["HTTP <code>: ..."]. *)
Theorem X20_error_payload repr_str r :
  ok r = false →
  ∃ c msg,
    _raise_for_status repr_str r =
      Raises (Api c msg (Some (status_code r))
                  (match json r with
                   | JsonValue v => v
                   | JsonInvalid _ => PNone
                   end)) ∧
    (500 ≤ status_code r →
       msg = "Server error: " +:+ py_str repr_str (error_message r)) ∧
    (status_code r < 500 →
       status_code r ∉ [400; 401; 403; 404; 429] →
       msg = "HTTP " +:+ pretty (status_code r) +:+ ": "
             +:+ py_str repr_str (error_message r)).
Proof.
  intros Hok. unfold _raise_for_status. rewrite Hok. cbv zeta.
  assert (error_data_or_None r =
          match json r with JsonValue v => v | JsonInvalid _ => PNone end)
    as -> by (unfold error_data_or_None, response_json; by destruct (json r)).
  unfold ok in Hok. apply negb_false_iff, andb_true_iff in Hok as [Hlo Hhi].
  repeat match goal with
         | |- context [if ?z =? ?k then _ else _] =>
             destruct (Z.eqb_spec z k) as [E|?];
             [do 2 eexists; split; [reflexivity|];
              split; [lia|intros _ H; exfalso; apply H;
                      rewrite E; apply list_elem_of_In; simpl; tauto]|]
         end.
  rewrite Hhi, andb_true_r.
  destruct (500 <=? status_code r) eqn:E5; do 2 eexists;
    (split; [reflexivity|]); split; first [done | lia].
Qed.

Lemma X20_error_payload_witness :
  ok (json_response 503 "[]" (PList [])) = false ∧
  ∃ c,
    _raise_for_status plain_repr (json_response 503 "[]" (PList [])) =
    Raises (Api c "Server error: []" (Some 503) (PList [])).
Proof.
  split; [reflexivity|].
  destruct (X20_error_payload plain_repr (json_response 503 "[]" (PList []))
              eq_refl) as (c & msg & Hrun & Hserver & _).
  exists c. rewrite Hrun. by rewrite (Hserver ltac:(done)).
Defined.

(** Once the headers are ready, a target API that answers with an accepted
    response gets one request, and its parsed body is returned. *)
Lemma make_api_request_accepted repr_str w method endpoint headers params
    json_data data retry_auth st h st1 r :
  with_authorization repr_str w headers st = (Returns h, st1) →
  (∀ n req, target w n req = Responded r) →
  ok r = true →
  make_api_request repr_str w method endpoint headers params json_data data
                   retry_auth st =
    (Returns (response_data r),
     State (_cached_access_token st1) (broker_log st1)
       (api_log st1 ++
        [ApiRequest method (BASE_URL +:+ endpoint) h params json_data data 30])).
Proof.
  intros Hauth Htarget Hok.
  rewrite (make_api_request_sent _ _ _ _ _ _ _ _ _ _ _ _ Hauth).
  rewrite send_first. cbv zeta. rewrite Htarget. simpl.
  assert ((status_code r =? 401) = false) as ->.
  { unfold ok in Hok. apply negb_true_iff in Hok.
    destruct (Z.eqb_spec (status_code r) 401) as [E|]; [|done].
    rewrite E in Hok. discriminate. }
  simpl. by rewrite (_raise_for_status_ok _ _ Hok).
Qed.

(** A fetch that succeeds: the token is read from the body and stored. *)
Lemma get_access_token_fetch repr_str w st r body token :
  _cached_access_token st = PNone →
  missing_vars w = [] →
  broker w (length (broker_log st)) (credentials_request repr_str w)
    = Responded r →
  ok r = true →
  json r = JsonValue body →
  nested_field "credentials" "access_token" body = Some token →
  truthy token = true →
  get_access_token repr_str w st =
    (Returns token,
     State token (broker_log st ++ [credentials_request repr_str w])
           (api_log st)).
Proof.
  intros Hmiss Hcfg Hb Hok Hj Hfield Htruthy.
  unfold get_access_token. run. rewrite Hmiss. simpl.
  rewrite (get_connection_credentials_success _ _ _ _ _ Hcfg Hb Hok Hj).
  unfold nested_field in Hfield.
  destruct body as [| | | | | |kvs]; try discriminate.
  destruct (lookup_key "credentials" kvs) as [[| | | | | |kvs']|] eqn:Hc;
    try discriminate.
  simpl. rewrite Hc. simpl. rewrite Hfield. simpl. by rewrite Htruthy.
Qed.

(** X21. The token fetched for one call serves the next: starting from an
    empty slot, two calls of [make_api_request] in a row, each answered
    with an accepted response, call the broker once in all, and both
    requests carry the same bearer token. *)
Theorem X21_one_fetch_serves_calls repr_str w st rb body token r
    method1 endpoint1 params1 json1 data1 retry1
    method2 endpoint2 params2 json2 data2 retry2 :
  _cached_access_token st = PNone →
  missing_vars w = [] →
  broker w (length (broker_log st)) (credentials_request repr_str w)
    = Responded rb →
  ok rb = true →
  json rb = JsonValue body →
  nested_field "credentials" "access_token" body = Some token →
  truthy token = true →
  (∀ n req, target w n req = Responded r) →
  ok r = true →
  let headers : gmap string string :=
    <["Content-Type" := "application/json"]>
      (<["Authorization" := bearer repr_str token]> ∅) in
  (make_api_request repr_str w method1 endpoint1 None params1 json1 data1
                    retry1 ;;
   make_api_request repr_str w method2 endpoint2 None params2 json2 data2
                    retry2) st =
  (Returns (response_data r),
   State token (broker_log st ++ [credentials_request repr_str w])
     (api_log st ++
      [ApiRequest method1 (BASE_URL +:+ endpoint1) headers params1 json1
                  data1 30;
       ApiRequest method2 (BASE_URL +:+ endpoint2) headers params2 json2
                  data2 30])).
Proof.
  intros Hmiss Hcfg Hb Hokb Hj Hfield Htruthy Htarget Hok headers.
  pose proof (get_access_token_fetch _ _ _ _ _ _ Hmiss Hcfg Hb Hokb Hj Hfield
                Htruthy) as Hfetch.
  assert (with_authorization repr_str w None st =
          (Returns headers,
           State token (broker_log st ++ [credentials_request repr_str w])
                 (api_log st))) as Hauth1.
  { unfold with_authorization. simpl.
    by rewrite (bind_returns _ _ _ _ _ Hfetch). }
  pose proof (make_api_request_accepted repr_str w method1 endpoint1 None
                params1 json1 data1 retry1 _ _ _ r Hauth1 Htarget Hok) as H1.
  simpl in H1. rewrite (bind_returns _ _ _ _ _ H1).
  rewrite (make_api_request_answered repr_str w method2 endpoint2 params2
             json2 data2 retry2 _ r); simpl; try done.
  - by rewrite <- app_assoc.
  - by destruct token.
Qed.

Lemma X21_one_fetch_serves_calls_witness :
  let w := api_world (PStr "fresh")
             (λ _, Responded (json_response 200 "{}" (PDict []))) in
  let headers : gmap string string :=
    <["Content-Type" := "application/json"]>
      (<["Authorization" := "Bearer fresh"]> ∅) in
  (make_api_request plain_repr w "GET" "/v4/spreadsheets/abc" None PNone
                    PNone PNone true ;;
   make_api_request plain_repr w "POST" "/v4/spreadsheets" None PNone
                    (PDict []) PNone true) initial_state =
  (Returns (PDict []),
   State (PStr "fresh") [credentials_request plain_repr w]
     [ApiRequest "GET" "https://sheets.googleapis.com/v4/spreadsheets/abc"
        headers PNone PNone PNone 30;
      ApiRequest "POST" "https://sheets.googleapis.com/v4/spreadsheets"
        headers PNone (PDict []) PNone 30]).
Proof.
  intros w headers.
  exact (X21_one_fetch_serves_calls plain_repr w initial_state
           (credentials_response (quoted "fresh") (PStr "fresh"))
           (credentials_body (PStr "fresh")) (PStr "fresh")
           (json_response 200 "{}" (PDict []))
           "GET" "/v4/spreadsheets/abc" PNone PNone PNone true
           "POST" "/v4/spreadsheets" PNone (PDict []) PNone true
           eq_refl eq_refl eq_refl eq_refl eq_refl eq_refl eq_refl
           (λ _ _, eq_refl) eq_refl).
Defined.
